(** * gh-space-shooter: the animation pipeline, embedded and verified

    A shallow embedding of

    - [src/gh_space_shooter/game/game_state.py]  (Enemy, Bullet, Ship, GameState),
    - [src/gh_space_shooter/game/renderer.py]    (Renderer),
    - [src/gh_space_shooter/game/animator.py]    (Animator),
    - [app/src/main.py]                          (the web endpoint),

    followed by the properties of the specification, each settled on the
    embedded code.

    Conventions of the embedding.
    - A Python [int] is a [Z]; a Python [float] is a binary64 [float] of the
      kernel (PrimFloat), so [/] and [*] round as CPython's do.
    - A Python object that is mutated lives in a state that the methods
      thread: a method of [GameState] is a computation in [M GameState.t];
      [Renderer.render_frame] and [Animator._generate_frames] are
      computations in [M Renderer.t], the renderer being the object through
      which the game state it refers to is reached.
    - An exception is the [Raise] result of a computation.
    - Pillow is outside the repository: an [Image] records its creation
      arguments and, in order, the drawing calls made on it. *)

From Stdlib Require Import ZArith Lia Floats.PrimFloat Floats.FloatOps Floats.SpecFloat.
From stdpp Require Import base option list strings pretty gmap.

Open Scope Z_scope.

(** ** Results, exceptions and the state monad *)

(** The exceptions the embedded code can raise or catch. *)
Inductive PyExc : Type :=
  | KeyError (key : Z)
  | GitHubAPIError (msg : string)
  | Exception (msg : string).

Inductive Result (A : Type) : Type :=
  | Ok (a : A)
  | Raise (e : PyExc).
Arguments Ok {A} a.
Arguments Raise {A} e.

#[global] Instance Result_ret : MRet Result := fun A a => Ok a.
#[global] Instance Result_bind : MBind Result := fun A B f r =>
  match r with
  | Ok a => f a
  | Raise e => Raise e
  end.

(** A method of an object of type [S]: it reads and writes the object and
    either returns a value or raises. *)
Definition M (S A : Type) : Type := S -> Result (A * S).

#[global] Instance M_ret {S} : MRet (M S) := fun A a s => Ok (a, s).
#[global] Instance M_bind {S} : MBind (M S) := fun A B f m s =>
  match m s with
  | Ok (a, s') => f a s'
  | Raise e => Raise e
  end.

(** [self.field] read, [self.field = v] written. *)
Definition gets {S A} (f : S -> A) : M S A := fun s => Ok (f s, s).
Definition modify {S} (f : S -> S) : M S unit := fun s => Ok (tt, f s).
(** A call that touches no state: only its exception is propagated. *)
Definition liftR {S A} (r : Result A) : M S A := fun s =>
  match r with
  | Ok a => Ok (a, s)
  | Raise e => Raise e
  end.
(** A method of a component object run from its owner: [get] and [set]
    select the component. *)
Definition zoom {S T A} (get : S -> T) (set : T -> S -> S) (m : M T A) : M S A :=
  fun s =>
    match m (get s) with
    | Ok (a, t') => Ok (a, set t' s)
    | Raise e => Raise e
    end.

(** [for x in l: acc = body(acc, x)]: the loop of a Python method, with the
    local variables the body rebinds or mutates as the accumulator. *)
Fixpoint for_in {S A B} (l : list A) (acc : B) (body : B -> A -> M S B) : M S B :=
  match l with
  | [] => mret acc
  | x :: l' => acc' ← body acc x; for_in l' acc' body
  end.

(** [range(n)] and [enumerate(l)]. *)
Definition range (n : Z) : list Z := seqZ 0 n.

Fixpoint enumerate_from {A} (start : Z) (l : list A) : list (Z * A) :=
  match l with
  | [] => []
  | x :: l' => (start, x) :: enumerate_from (start + 1) l'
  end.
Definition enumerate {A} (l : list A) : list (Z * A) := enumerate_from 0 l.

(** ** Python numbers *)

(** The conversion [int -> float] that CPython applies to the [int] operand
    of a mixed operation: the nearest binary64 value, ties to even.  It is
    exact below [2^53], which covers every pixel coordinate of a grid.
    (Where the nearest value is not finite, from about [1.8e308] on, CPython
    raises [OverflowError]; the index of a list never comes near.) *)
Definition float_of_int (z : Z) : float :=
  SF2Prim (binary_normalize prec emax z 0 false).

(** [a / b] on two [int]s (true division): the quotient rounded once, which
    for operands below [2^53] is the division of the two converted values. *)
Definition int_truediv (a b : Z) : float :=
  PrimFloat.div (float_of_int a) (float_of_int b).

(** ** Pillow: images as recorded drawing calls *)

(** An RGB tuple. *)
Definition Color : Type := Z * Z * Z.

(** One call on an [ImageDraw] handle, with its arguments. *)
Inductive DrawOp : Type :=
  | rectangle (x0 y0 x1 y1 : Z) (fill : Color)
  | ellipse (x0 : Z) (y0 : float) (x1 : Z) (y1 : float) (fill : Color)
  | polygon (xy : list (Z * Z)) (fill : Color).

(** [Image.new(mode, size, color)], then the calls drawn on it, oldest
    first (a later call paints over an earlier one).  [ImageDraw.Draw(img)]
    is a handle on [img]: drawing through it changes [img]. *)
Module Image.
Record t : Type := mk {
  mode : string;
  size : Z * Z;
  color : Color;
  drawn : list DrawOp
}.
Definition new (mode : string) (size : Z * Z) (color : Color) : t :=
  mk mode size color [].
Definition paint (op : DrawOp) (img : t) : t :=
  mk (mode img) (size img) (color img) (drawn img ++ [op]).
End Image.

(** The rendering context, the [dict] that [Renderer._create_context]
    builds: one field per key. *)
Module Context.
Record t : Type := mk {
  get_cell_position : Z -> Z -> Z * Z;
  cell_size : Z;
  cell_spacing : Z;
  padding : Z;
  grid_color : Color;
  enemy_colors : gmap Z Color;
  ship_color : Color;
  bullet_color : Color
}.
End Context.

(** [d[key]] on a dict keyed by [int]: [KeyError] when the key is absent. *)
Definition dict_getitem {V} (d : gmap Z V) (key : Z) : Result V :=
  match d !! key with
  | Some v => Ok v
  | None => Raise (KeyError key)
  end.
(** [d.get(key, default)]. *)
Definition dict_get {V} (d : gmap Z V) (key : Z) (default : V) : V :=
  match d !! key with
  | Some v => v
  | None => default
  end.

(** ** Contribution data (github_client.ContributionData)

    The typed dictionaries are declared in [github_client], which is not
    embedded; the fields below are the ones
    [GameState._initialize_enemies] reads. *)
Module ContributionData.
Record Day : Type := mkDay { level : Z }.
Record Week : Type := mkWeek { days : list Day }.
Record t : Type := mk { weeks : list Week }.
End ContributionData.

(** ** game_state.py: Enemy *)
Module Enemy.
Record t : Type := mk {
  week : Z;
  day : Z;
  health : Z;
  max_health : Z
}.

Definition __init__ (week day health : Z) : t := mk week day health health.

(** [self.health -= 1; return self.health <= 0] *)
Definition take_damage (self : t) : bool * t :=
  let self := mk (week self) (day self) (health self - 1) (max_health self) in
  (health self <=? 0, self).

Definition is_alive (self : t) : bool := 0 <? health self.

Definition draw (self : t) (draw : Image.t) (context : Context.t) : Result Image.t :=
  if negb (is_alive self) then Ok draw
  else
    let get_cell_position := Context.get_cell_position context in
    let '(x, y) := get_cell_position (week self) (day self) in
    let color_map := Context.enemy_colors context in
    let cell_size := Context.cell_size context in
    (* the default argument is evaluated before [get] is called *)
    fallback ← dict_getitem color_map 1;
    let color := dict_get color_map (health self) fallback in
    Ok (Image.paint (rectangle x y (x + cell_size) (y + cell_size) color) draw).
End Enemy.

(** ** game_state.py: Bullet *)
Module Bullet.
Record t : Type := mk {
  week : Z;
  target_day : Z;
  progress : float
}.

Definition __init__ (week target_day : Z) (progress : float) : t :=
  mk week target_day progress.

(** [self.progress = p], the assignment the animator makes on the bullet
    that [GameState.shoot] returned. *)
Definition set_progress (self : t) (p : float) : t :=
  mk (week self) (target_day self) p.

Section draw.
Variable NUM_DAYS : Z.

Definition draw (self : t) (draw : Image.t) (context : Context.t) : Result Image.t :=
  let get_cell_position := Context.get_cell_position context in
  let cell_size := Context.cell_size context in
  let cell_spacing := Context.cell_spacing context in
  let padding := Context.padding context in
  let bullet_color := Context.bullet_color context in
  let '(x, _) := get_cell_position (week self) 0 in
  let x := x + cell_size `div` 2 in
  let ship_y := padding + NUM_DAYS * (cell_size + cell_spacing) + 10 in
  let '(_, target_y) := get_cell_position (week self) (target_day self) in
  let target_y := target_y + cell_size `div` 2 in
  (* int + int * float *)
  let y := PrimFloat.add (float_of_int ship_y)
             (PrimFloat.mul (float_of_int (target_y - ship_y)) (progress self)) in
  let radius := 3 in
  Ok (Image.paint
        (ellipse (x - radius) (PrimFloat.sub y (float_of_int radius))
                 (x + radius) (PrimFloat.add y (float_of_int radius))
                 bullet_color)
        draw).
End draw.
End Bullet.

(** ** game_state.py: Ship *)
Module Ship.
Record t : Type := mk { week : Z }.

Definition __init__ : t := mk (-1).

Definition move_to (self : t) (week : Z) : t := mk week.

Section draw.
Variable NUM_DAYS : Z.

Definition draw (self : t) (draw : Image.t) (context : Context.t) : Result Image.t :=
  let get_cell_position := Context.get_cell_position context in
  let cell_size := Context.cell_size context in
  let cell_spacing := Context.cell_spacing context in
  let padding := Context.padding context in
  let ship_color := Context.ship_color context in
  let x := if 0 <=? week self
           then fst (get_cell_position (week self) 0)
           else padding - 20 in
  let ship_y := padding + NUM_DAYS * (cell_size + cell_spacing) + 10 in
  Ok (Image.paint
        (polygon [ (x + cell_size `div` 2, ship_y);
                   (x, ship_y + cell_size);
                   (x + cell_size, ship_y + cell_size) ]
                 ship_color)
        draw).
End draw.
End Ship.

(** ** game_state.py: GameState *)
Module GameState.
Record t : Type := mk {
  contribution_data : ContributionData.t;
  ship : Ship.t;
  enemies : list Enemy.t;
  bullets : list Bullet.t
}.

Definition set_ship (v : Ship.t) (self : t) : t :=
  mk (contribution_data self) v (enemies self) (bullets self).
Definition set_enemies (v : list Enemy.t) (self : t) : t :=
  mk (contribution_data self) (ship self) v (bullets self).
Definition set_bullets (v : list Bullet.t) (self : t) : t :=
  mk (contribution_data self) (ship self) (enemies self) v.

Definition _initialize_enemies : M t unit :=
  weeks ← gets (fun self => ContributionData.weeks (contribution_data self));
  for_in (enumerate weeks) tt (fun _ '(week_idx, week) =>
    for_in (enumerate (ContributionData.days week)) tt (fun _ '(day_idx, day) =>
      let level := ContributionData.level day in
      if 0 <? level then
        let enemy := Enemy.__init__ week_idx day_idx level in
        modify (fun self => set_enemies (enemies self ++ [enemy]) self)
      else mret tt)).

Definition __init__ (contribution_data : ContributionData.t) : Result t :=
  let self := mk contribution_data Ship.__init__ [] [] in
  '(_, self) ← _initialize_enemies self;
  Ok self.

(** The test of the scan in [get_enemy_at]. *)
Definition targets (week day : Z) (enemy : Enemy.t) : Prop :=
  Enemy.week enemy = week ∧ Enemy.day enemy = day ∧ Enemy.is_alive enemy = true.
#[global] Instance targets_dec week day enemy : Decision (targets week day enemy).
Proof. unfold targets. apply _. Defined.

(** The enemy object that the scan returns is named by its place in
    [self.enemies]: the list only grows in [__init__], so a place names
    one object for the whole run. *)
Definition get_enemy_at (week day : Z) : M t (option nat) :=
  enemies ← gets enemies;
  mret (fst <$> list_find (targets week day) enemies).

(** The new bullet is returned by reference: the caller's later
    assignments to it are seen through [self.bullets].  The reference is
    the bullet's place in the list. *)
Definition shoot (week day : Z) : M t nat :=
  let bullet := Bullet.__init__ week day 0%float in
  ref ← gets (fun self => length (bullets self));
  modify (fun self => set_bullets (bullets self ++ [bullet]) self);;
  mret ref.

(** [enemy.take_damage()] on the object found; the returned flag is
    dropped. *)
Definition hit_target (week day : Z) : M t unit :=
  enemy ← get_enemy_at week day;
  match enemy with
  | Some ref =>
      modify (fun self =>
        set_enemies (alter (fun e => snd (Enemy.take_damage e)) ref (enemies self)) self)
  | None => mret tt
  end.

Definition clear_bullets : M t unit :=
  modify (set_bullets []).

Definition get_alive_enemies : M t (list Enemy.t) :=
  gets (fun self => filter (fun enemy => Enemy.is_alive enemy = true) (enemies self)).

Definition is_complete : M t bool :=
  alive ← get_alive_enemies;
  mret (bool_decide (length alive = 0%nat)).

Section draw.
Variables NUM_WEEKS NUM_DAYS : Z.

Definition _draw_grid (draw : Image.t) (context : Context.t) : M t Image.t :=
  let get_cell_position := Context.get_cell_position context in
  let cell_size := Context.cell_size context in
  let grid_color := Context.grid_color context in
  for_in (range NUM_WEEKS) draw (fun draw week =>
    for_in (range NUM_DAYS) draw (fun draw day =>
      let '(x, y) := get_cell_position week day in
      mret (Image.paint (rectangle x y (x + cell_size) (y + cell_size) grid_color) draw))).

Definition draw (draw : Image.t) (context : Context.t) : M t Image.t :=
  draw ← _draw_grid draw context;
  alive ← get_alive_enemies;
  draw ← for_in alive draw (fun draw enemy => liftR (Enemy.draw enemy draw context));
  bullets ← gets bullets;
  draw ← for_in bullets draw (fun draw bullet =>
            liftR (Bullet.draw NUM_DAYS bullet draw context));
  ship ← gets ship;
  liftR (Ship.draw NUM_DAYS ship draw context).
End draw.
End GameState.

(** ** renderer.py: Renderer *)
Module Renderer.
Definition CELL_SIZE : Z := 12.
Definition CELL_SPACING : Z := 2.

Definition COLOR_BACKGROUND : Color := (13, 17, 23).
Definition COLOR_EMPTY : Color := (22, 27, 34).
Definition COLOR_SHIP : Color := (88, 166, 255).
Definition COLOR_BULLET : Color := (255, 223, 0).

Definition COLOR_ENEMY : gmap Z Color :=
  <[1 := (0, 109, 50)]> (<[2 := (38, 166, 65)]> (<[3 := (57, 211, 83)]>
    (<[4 := (87, 242, 135)]> ∅))).

(** [game_state] is a reference: the renderer sees every change the
    animator makes to the game state, and the animator reaches the game
    state it was handed through this field. *)
Record t : Type := mk {
  game_state : GameState.t;
  grid_width : Z;
  grid_height : Z;
  padding : Z;
  width : Z;
  height : Z
}.

Definition set_game_state (v : GameState.t) (self : t) : t :=
  mk v (grid_width self) (grid_height self) (padding self) (width self) (height self).

Definition _get_cell_position (self : t) (week day : Z) : Z * Z :=
  let x := padding self + week * (CELL_SIZE + CELL_SPACING) in
  let y := padding self + day * (CELL_SIZE + CELL_SPACING) in
  (x, y).

Definition _create_context (self : t) : Context.t :=
  Context.mk (_get_cell_position self) CELL_SIZE CELL_SPACING (padding self)
             COLOR_EMPTY COLOR_ENEMY COLOR_SHIP COLOR_BULLET.

Section methods.
Variables NUM_WEEKS NUM_DAYS : Z.

Definition __init__ (game_state : GameState.t) : t :=
  let grid_width := NUM_WEEKS * (CELL_SIZE + CELL_SPACING) in
  let grid_height := NUM_DAYS * (CELL_SIZE + CELL_SPACING) in
  let padding := 40 in
  mk game_state grid_width grid_height padding
     (grid_width + 2 * padding) (grid_height + 2 * padding).

Definition render_frame : M t Image.t :=
  size ← gets (fun self => (width self, height self));
  let img := Image.new "RGB" size COLOR_BACKGROUND in
  let draw := img in
  context ← gets _create_context;
  zoom game_state set_game_state (GameState.draw NUM_WEEKS NUM_DAYS draw context).
End methods.
End Renderer.

(** ** strategies/base_strategy.py: Action and BaseStrategy

    The strategies themselves are not embedded.  An action is read by
    the animator through [week], [day] and [shoot]; a strategy is
    what one call of its [generate_actions] yields for the data, whichever
    traversal (or shuffle) produced it. *)
Module Action.
Record t : Type := mk {
  week : Z;
  day : Z;
  shoot : bool
}.
End Action.

Module BaseStrategy.
Record t : Type := mk {
  generate_actions : ContributionData.t -> list Action.t
}.
End BaseStrategy.

(** ** animator.py: Animator *)
Module Animator.
Record t : Type := mk {
  contribution_data : ContributionData.t;
  strategy : BaseStrategy.t;
  frame_duration : Z
}.

(** What [frames[0].save(output_path, save_all=True, append_images=frames[1:],
    duration=..., loop=0, optimize=False)] hands to Pillow's encoder. *)
Record GifFile : Type := mkGif {
  gif_frames : list Image.t;
  gif_duration : Z;
  gif_loop : Z
}.

Section methods.
Variables NUM_WEEKS NUM_DAYS : Z.

(** A method called on the [game_state] argument: the object is the one
    the [renderer] argument refers to ([generate_gif] builds the two
    that way). *)
Definition on_game_state {A} (m : M GameState.t A) : M Renderer.t A :=
  zoom Renderer.game_state Renderer.set_game_state m.

(** [renderer.render_frame()] *)
Definition render_frame : M Renderer.t Image.t :=
  Renderer.render_frame NUM_WEEKS NUM_DAYS.

(** Lines 88-89: one step of the flight, [bullet] being the reference
    [shoot] returned. *)
Definition _generate_frames_step (bullet_flight_steps : Z) (bullet : nat)
    (frames : list Image.t) (step : Z) : M Renderer.t (list Image.t) :=
  on_game_state (modify (fun game_state =>
    GameState.set_bullets
      (alter (fun b => Bullet.set_progress b (int_truediv (step + 1) bullet_flight_steps))
             bullet (GameState.bullets game_state))
      game_state));;
  img ← render_frame;
  mret (frames ++ [img]).

(** Lines 87-89: the flight of the bullet. *)
Definition _generate_frames_flight (bullet_flight_steps : Z) (bullet : nat)
    (frames : list Image.t) : M Renderer.t (list Image.t) :=
  for_in (range bullet_flight_steps) frames
         (_generate_frames_step bullet_flight_steps bullet).

(** Lines 78-98: the body of the loop over the actions. *)
Definition _generate_frames_action (bullet_flight_steps : Z)
    (frames : list Image.t) (action : Action.t) : M Renderer.t (list Image.t) :=
  on_game_state (modify (fun game_state =>
    GameState.set_ship (Ship.move_to (GameState.ship game_state) (Action.week action))
                       game_state));;
  if Action.shoot action then
    bullet ← on_game_state (GameState.shoot (Action.week action) (Action.day action));
    frames ← _generate_frames_flight bullet_flight_steps bullet frames;
    on_game_state (GameState.hit_target (Action.week action) (Action.day action));;
    on_game_state GameState.clear_bullets;;
    mret frames
  else
    img ← render_frame;
    mret (frames ++ [img]).

Definition _generate_frames (self : t) : M Renderer.t (list Image.t) :=
  let frames := [] in
  let bullet_flight_steps := 5 in
  img ← render_frame;
  let frames := frames ++ [img] in
  frames ← for_in (BaseStrategy.generate_actions (strategy self) (contribution_data self))
             frames (_generate_frames_action bullet_flight_steps);
  img ← render_frame;
  let frames := frames ++ [img] in
  img ← render_frame;
  let frames := frames ++ [img] in
  mret frames.

(** The file written at [output_path], if any. *)
Definition generate_gif (self : t) : Result (option GifFile) :=
  game_state ← GameState.__init__ (contribution_data self);
  let renderer := Renderer.__init__ NUM_WEEKS NUM_DAYS game_state in
  '(frames, _) ← _generate_frames self renderer;
  match frames with
  | [] => Ok None
  | _ :: _ => Ok (Some (mkGif frames (frame_duration self) 0))
  end.
End methods.
End Animator.

(** ** app/src/main.py: the web endpoint

    The GitHub client and the animator the application is deployed with are
    collaborators of the endpoint: what they return or raise is given. *)
Module App.
Inductive StrategyClass : Type := ColumnStrategy | RowStrategy | RandomStrategy.

(** [STRATEGY_MAP], in the order of the literal ([keys()] keeps it). *)
Definition STRATEGY_MAP : list (string * StrategyClass) :=
  [ ("column"%string, ColumnStrategy);
    ("row"%string, RowStrategy);
    ("random"%string, RandomStrategy) ].

Definition keys {V} (d : list (string * V)) : list string := map fst d.

(** [key in d] *)
Definition contains {V} (d : list (string * V)) (key : string) : bool :=
  bool_decide (key ∈ keys d).

(** [d.get(key, default)] *)
Fixpoint get {V} (d : list (string * V)) (key : string) (default : V) : V :=
  match d with
  | [] => default
  | (k, v) :: d' => if String.eqb k key then v else get d' key default
  end.

(** [sep.join(l)] *)
Fixpoint join (sep : string) (l : list string) : string :=
  match l with
  | [] => EmptyString
  | [s] => s
  | s :: l' => s +:+ sep +:+ join sep l'
  end.

(** [str(e)]: the message, or for a [KeyError] the key. *)
Definition str (e : PyExc) : string :=
  match e with
  | KeyError key => pretty key
  | GitHubAPIError msg => msg
  | Exception msg => msg
  end.

(** What the endpoint answers: a [Response], or the status and detail of
    the [HTTPException] it raises. *)
Inductive HttpOutcome (Body : Type) : Type :=
  | Response (content : Body) (media_type : string) (headers : list (string * string))
  | HTTPException (status_code : Z) (detail : string).
Arguments Response {Body} content media_type headers.
Arguments HTTPException {Body} status_code detail.

Section endpoint.
Variables Data BytesIO : Type.
(** [GitHubClient(token).get_contribution_graph(username)] *)
Variable get_contribution_graph : string -> string -> Result Data.
(** [Animator(data, strategy_class(), fps=25, watermark=True).generate_gif(maxFrame=250)] *)
Variable animate : Data -> StrategyClass -> Result BytesIO.

Definition generate_gif (username strategy token : string) : Result BytesIO :=
  data ← get_contribution_graph token username;
  let strategy_class := get STRATEGY_MAP strategy RandomStrategy in
  animate data strategy_class.

(** [GH_TOKEN] is the value [os.getenv] finds, if any. *)
Definition generate (GH_TOKEN : option string) (username strategy : string)
    : HttpOutcome BytesIO :=
  match GH_TOKEN with
  | None => HTTPException 500 "GitHub token not configured"
  | Some token =>
      if bool_decide (token = EmptyString) then
        HTTPException 500 "GitHub token not configured"
      else if negb (contains STRATEGY_MAP strategy) then
        HTTPException 400
          ("Invalid strategy. Choose from: " +:+ join ", " (keys STRATEGY_MAP))
      else
        match generate_gif username strategy token with
        | Ok gif_buffer =>
            Response gif_buffer "image/gif"
              [ ("Response-Type", "blob");
                ("Content-Disposition",
                 "inline; filename=" +:+ username +:+ "-space-shooter.gif") ]%string
        | Raise (GitHubAPIError msg) => HTTPException 400 msg
        | Raise e => HTTPException 500 ("Failed to generate GIF: " +:+ str e)
        end
  end.
End endpoint.
End App.

(** * Properties *)

(** ** Running computations *)

Lemma bind_run {S A B} (m : M S A) (f : A -> M S B) s a s' :
  m s = Ok (a, s') -> (m ≫= f) s = f a s'.
Proof. intros H. unfold mbind, M_bind. by rewrite H. Qed.

(** One statement of a method, run: the equation for it is the side goal. *)
Ltac step := erewrite bind_run; [| reflexivity].
Ltac step_by lem := erewrite bind_run; [| by apply lem].

Lemma zoom_run {S T A} (get : S -> T) (set : T -> S -> S) (m : M T A) s a t' :
  m (get s) = Ok (a, t') -> zoom get set m s = Ok (a, set t' s).
Proof. intros H. unfold zoom. by rewrite H. Qed.

(** A loop whose body never raises and leaves the object as it is folds
    its accumulator. *)
Lemma for_in_pure {S A B} (g : B -> A -> B) (body : B -> A -> M S B) l acc s :
  (forall acc x, body acc x s = Ok (g acc x, s)) ->
  for_in l acc body s = Ok (foldl g acc l, s).
Proof.
  intros Hbody. revert acc.
  induction l as [|x l IH]; intros acc; simpl; [done|].
  rewrite (bind_run _ _ _ _ _ (Hbody acc x)). apply IH.
Qed.

(** ** What a frame shows *)

Module Paint.
Definition all (ops : list DrawOp) (img : Image.t) : Image.t :=
  Image.mk (Image.mode img) (Image.size img) (Image.color img) (Image.drawn img ++ ops).

Lemma one op img : Image.paint op img = all [op] img.
Proof. reflexivity. Qed.

Lemma nothing img : all [] img = img.
Proof. destruct img. unfold all. simpl. by rewrite app_nil_r. Qed.

Lemma app ops1 ops2 img : all ops2 (all ops1 img) = all (ops1 ++ ops2) img.
Proof. unfold all. simpl. by rewrite app_assoc. Qed.

Lemma foldl_all {A} (f : A -> list DrawOp) l img :
  foldl (fun img x => all (f x) img) img l = all (l ≫= f) img.
Proof.
  revert img. induction l as [|x l IH]; intros img; simpl.
  - by rewrite nothing.
  - by rewrite IH, app.
Qed.
End Paint.

Section frames.
Variables NUM_WEEKS NUM_DAYS : Z.

(** The square of one grid cell. *)
Definition cell_rect (context : Context.t) (fill : Color) (week day : Z) : DrawOp :=
  let '(x, y) := Context.get_cell_position context week day in
  rectangle x y (x + Context.cell_size context) (y + Context.cell_size context) fill.

Definition grid_ops (context : Context.t) : list DrawOp :=
  week ← range NUM_WEEKS; day ← range NUM_DAYS;
  [cell_rect context (Context.grid_color context) week day].

Definition enemy_color (context : Context.t) (fallback : Color) (enemy : Enemy.t) : Color :=
  dict_get (Context.enemy_colors context) (Enemy.health enemy) fallback.

Definition enemy_ops (context : Context.t) (fallback : Color) (enemies : list Enemy.t)
    : list DrawOp :=
  (fun enemy => cell_rect context (enemy_color context fallback enemy)
                  (Enemy.week enemy) (Enemy.day enemy))
    <$> filter (fun enemy => Enemy.is_alive enemy = true) enemies.

Definition ship_row (context : Context.t) : Z :=
  Context.padding context
  + NUM_DAYS * (Context.cell_size context + Context.cell_spacing context) + 10.

Definition bullet_op (context : Context.t) (bullet : Bullet.t) : DrawOp :=
  let x := fst (Context.get_cell_position context (Bullet.week bullet) 0)
           + Context.cell_size context `div` 2 in
  let target_y :=
    snd (Context.get_cell_position context (Bullet.week bullet) (Bullet.target_day bullet))
    + Context.cell_size context `div` 2 in
  let y := PrimFloat.add (float_of_int (ship_row context))
             (PrimFloat.mul (float_of_int (target_y - ship_row context))
                            (Bullet.progress bullet)) in
  ellipse (x - 3) (PrimFloat.sub y (float_of_int 3))
          (x + 3) (PrimFloat.add y (float_of_int 3))
          (Context.bullet_color context).

Definition ship_x (context : Context.t) (ship : Ship.t) : Z :=
  if 0 <=? Ship.week ship
  then fst (Context.get_cell_position context (Ship.week ship) 0)
  else Context.padding context - 20.

Definition ship_op (context : Context.t) (ship : Ship.t) : DrawOp :=
  let x := ship_x context ship in
  polygon [ (x + Context.cell_size context `div` 2, ship_row context);
            (x, ship_row context + Context.cell_size context);
            (x + Context.cell_size context, ship_row context + Context.cell_size context) ]
          (Context.ship_color context).

(** Everything [GameState.draw] paints, in the order it paints it. *)
Definition scene (context : Context.t) (fallback : Color) (game_state : GameState.t)
    : list DrawOp :=
  grid_ops context
  ++ enemy_ops context fallback (GameState.enemies game_state)
  ++ (bullet_op context <$> GameState.bullets game_state)
  ++ [ship_op context (GameState.ship game_state)].

Lemma Enemy_draw_alive enemy img context fallback :
  Context.enemy_colors context !! 1 = Some fallback ->
  Enemy.is_alive enemy = true ->
  Enemy.draw enemy img context
  = Ok (Image.paint (cell_rect context (enemy_color context fallback enemy)
                       (Enemy.week enemy) (Enemy.day enemy)) img).
Proof.
  intros Hkey Halive. unfold Enemy.draw, cell_rect, enemy_color, dict_getitem.
  rewrite Halive, Hkey. simpl.
  by destruct (Context.get_cell_position context _ _).
Qed.

Lemma Enemy_draw_dead enemy img context :
  Enemy.is_alive enemy = false -> Enemy.draw enemy img context = Ok img.
Proof. intros Hdead. unfold Enemy.draw. by rewrite Hdead. Qed.

Lemma Bullet_draw_paints bullet img context :
  Bullet.draw NUM_DAYS bullet img context = Ok (Image.paint (bullet_op context bullet) img).
Proof.
  unfold Bullet.draw, bullet_op, ship_row.
  destruct (Context.get_cell_position context (Bullet.week bullet) 0).
  by destruct (Context.get_cell_position context (Bullet.week bullet) (Bullet.target_day bullet)).
Qed.

Lemma Ship_draw_paints ship img context :
  Ship.draw NUM_DAYS ship img context = Ok (Image.paint (ship_op context ship) img).
Proof. reflexivity. Qed.

Lemma draw_grid_run img context game_state :
  GameState._draw_grid NUM_WEEKS NUM_DAYS img context game_state
  = Ok (Paint.all (grid_ops context) img, game_state).
Proof.
  unfold GameState._draw_grid, grid_ops.
  rewrite (for_in_pure
    (fun img week => Paint.all (range NUM_DAYS ≫= fun day =>
       [cell_rect context (Context.grid_color context) week day]) img)).
  - by rewrite Paint.foldl_all.
  - intros acc week.
    rewrite (for_in_pure (fun img day =>
      Paint.all [cell_rect context (Context.grid_color context) week day] img)).
    + by rewrite Paint.foldl_all.
    + intros acc' day. unfold cell_rect.
      by destruct (Context.get_cell_position context week day).
Qed.

Lemma draw_enemies_run (alive : list Enemy.t) img context fallback (game_state : GameState.t) :
  Context.enemy_colors context !! 1 = Some fallback ->
  Forall (fun enemy => Enemy.is_alive enemy = true) alive ->
  for_in alive img (fun draw enemy => liftR (Enemy.draw enemy draw context)) game_state
  = Ok (Paint.all ((fun enemy => cell_rect context (enemy_color context fallback enemy)
                                   (Enemy.week enemy) (Enemy.day enemy)) <$> alive) img,
        game_state).
Proof.
  intros Hkey Halive. revert img.
  induction Halive as [|e l He Hl IH]; intros img; simpl.
  - by rewrite Paint.nothing.
  - erewrite bind_run.
    2:{ unfold liftR. by rewrite (Enemy_draw_alive _ _ _ fallback). }
    by rewrite IH, Paint.one, Paint.app.
Qed.

Lemma draw_bullets_run (bullets : list Bullet.t) img context (game_state : GameState.t) :
  for_in bullets img (fun draw bullet => liftR (Bullet.draw NUM_DAYS bullet draw context))
    game_state
  = Ok (Paint.all (bullet_op context <$> bullets) img, game_state).
Proof.
  rewrite (for_in_pure (fun img bullet => Paint.all [bullet_op context bullet] img)).
  - rewrite Paint.foldl_all. do 3 f_equal.
  - intros acc b. unfold liftR. by rewrite Bullet_draw_paints.
Qed.

Lemma draw_run img context fallback game_state :
  Context.enemy_colors context !! 1 = Some fallback ->
  GameState.draw NUM_WEEKS NUM_DAYS img context game_state
  = Ok (Paint.all (scene context fallback game_state) img, game_state).
Proof.
  intros Hkey. unfold GameState.draw, scene.
  step_by draw_grid_run.
  unfold GameState.get_alive_enemies. step.
  erewrite bind_run.
  2:{ apply (draw_enemies_run _ _ _ fallback); [done|].
      apply Forall_forall. intros e He. by apply list_elem_of_filter in He as [? _]. }
  step. step_by draw_bullets_run. step.
  unfold liftR. by rewrite Ship_draw_paints, Paint.one, !Paint.app.
Qed.
End frames.

(** ** The renderer *)

Lemma COLOR_ENEMY_level_1 : Renderer.COLOR_ENEMY !! 1 = Some (0, 109, 50).
Proof. reflexivity. Qed.

Lemma COLOR_ENEMY_keys k :
  is_Some (Renderer.COLOR_ENEMY !! k) <-> 1 <= k <= 4.
Proof.
  unfold Renderer.COLOR_ENEMY. split.
  - intros [c Hc].
    repeat (apply lookup_insert_Some in Hc as [[<- _] | [? Hc]]; [lia|]).
    by rewrite lookup_empty in Hc.
  - intros Hk.
    assert (k = 1 \/ k = 2 \/ k = 3 \/ k = 4) as [-> | [-> | [-> | ->]]] by lia; by eexists.
Qed.

Section renderer.
Variables NUM_WEEKS NUM_DAYS : Z.

(** The image [render_frame] returns for a renderer. *)
Definition frame_of (renderer : Renderer.t) : Image.t :=
  Paint.all
    (scene NUM_WEEKS NUM_DAYS (Renderer._create_context renderer) (0, 109, 50)
           (Renderer.game_state renderer))
    (Image.new "RGB" (Renderer.width renderer, Renderer.height renderer)
               Renderer.COLOR_BACKGROUND).

Lemma render_frame_run renderer :
  Renderer.render_frame NUM_WEEKS NUM_DAYS renderer = Ok (frame_of renderer, renderer).
Proof.
  unfold Renderer.render_frame. step. step.
  erewrite zoom_run.
  2:{ by apply (draw_run _ _ _ _ (0, 109, 50)). }
  by destruct renderer.
Qed.
End renderer.

(** ** The game state's methods, run *)

(** The state [hit_target] leaves. *)
Definition hit (week day : Z) (game_state : GameState.t) : GameState.t :=
  match list_find (GameState.targets week day) (GameState.enemies game_state) with
  | Some (ref, _) =>
      GameState.set_enemies
        (alter (fun e => snd (Enemy.take_damage e)) ref (GameState.enemies game_state))
        game_state
  | None => game_state
  end.

Lemma hit_target_run week day game_state :
  GameState.hit_target week day game_state = Ok (tt, hit week day game_state).
Proof.
  unfold GameState.hit_target, GameState.get_enemy_at, hit.
  step. by destruct (list_find _ _) as [[ref e]|].
Qed.

(** The state [shoot] leaves. *)
Definition fired (week day : Z) (game_state : GameState.t) : GameState.t :=
  GameState.set_bullets
    (GameState.bullets game_state ++ [Bullet.__init__ week day 0%float]) game_state.

Lemma shoot_run week day game_state :
  GameState.shoot week day game_state
  = Ok (length (GameState.bullets game_state), fired week day game_state).
Proof. reflexivity. Qed.

Lemma clear_bullets_run game_state :
  GameState.clear_bullets game_state = Ok (tt, GameState.set_bullets [] game_state).
Proof. reflexivity. Qed.

(** ** The animator, run *)

Section animator.
Variables NUM_WEEKS NUM_DAYS : Z.

(** A change of the game state, seen from the renderer that refers to it. *)
Definition with_game_state (f : GameState.t -> GameState.t) (renderer : Renderer.t)
    : Renderer.t :=
  Renderer.set_game_state (f (Renderer.game_state renderer)) renderer.

Lemma on_game_state_run {A} (m : M GameState.t A) renderer a game_state' :
  m (Renderer.game_state renderer) = Ok (a, game_state') ->
  Animator.on_game_state m renderer = Ok (a, with_game_state (fun _ => game_state') renderer).
Proof. intros H. unfold Animator.on_game_state. by rewrite (zoom_run _ _ _ _ _ _ H). Qed.

Definition moved (week : Z) : Renderer.t -> Renderer.t :=
  with_game_state (fun game_state =>
    GameState.set_ship (Ship.move_to (GameState.ship game_state) week) game_state).

(** The bullet at place [bullet] after the assignment of flight step [step]. *)
Definition advanced (steps : Z) (bullet : nat) (step : Z) : Renderer.t -> Renderer.t :=
  with_game_state (fun game_state =>
    GameState.set_bullets
      (alter (fun b => Bullet.set_progress b (int_truediv (step + 1) steps))
             bullet (GameState.bullets game_state))
      game_state).

(** The states in which the flight frames are rendered, one per step. *)
Fixpoint flight_states (steps : Z) (bullet : nat) (l : list Z) (renderer : Renderer.t)
    : list Renderer.t :=
  match l with
  | [] => []
  | step :: l' =>
      let renderer' := advanced steps bullet step renderer in
      renderer' :: flight_states steps bullet l' renderer'
  end.

Lemma step_run steps bullet frames step renderer :
  Animator._generate_frames_step NUM_WEEKS NUM_DAYS steps bullet frames step renderer
  = Ok (frames ++ [frame_of NUM_WEEKS NUM_DAYS (advanced steps bullet step renderer)],
        advanced steps bullet step renderer).
Proof.
  unfold Animator._generate_frames_step.
  erewrite bind_run; [| by apply on_game_state_run].
  unfold Animator.render_frame. step_by render_frame_run.
  by destruct renderer.
Qed.

Lemma steps_run steps bullet l frames renderer :
  for_in l frames (Animator._generate_frames_step NUM_WEEKS NUM_DAYS steps bullet) renderer
  = Ok (frames ++ (frame_of NUM_WEEKS NUM_DAYS <$> flight_states steps bullet l renderer),
        foldl (fun renderer step => advanced steps bullet step renderer) renderer l).
Proof.
  revert frames renderer.
  induction l as [|step l IH]; intros frames renderer; simpl.
  - by rewrite app_nil_r.
  - step_by step_run. by rewrite IH, <- app_assoc.
Qed.

(** The state one action leaves, and the frames it adds. *)
Definition after_action (steps : Z) (renderer : Renderer.t) (action : Action.t)
    : Renderer.t :=
  let renderer := moved (Action.week action) renderer in
  if Action.shoot action then
    let bullet := length (GameState.bullets (Renderer.game_state renderer)) in
    let renderer :=
      with_game_state (fired (Action.week action) (Action.day action)) renderer in
    let renderer :=
      foldl (fun renderer step => advanced steps bullet step renderer)
            renderer (range steps) in
    let renderer :=
      with_game_state (hit (Action.week action) (Action.day action)) renderer in
    with_game_state (GameState.set_bullets []) renderer
  else renderer.

Definition action_frames (steps : Z) (renderer : Renderer.t) (action : Action.t)
    : list Image.t :=
  let renderer := moved (Action.week action) renderer in
  if Action.shoot action then
    let bullet := length (GameState.bullets (Renderer.game_state renderer)) in
    frame_of NUM_WEEKS NUM_DAYS
      <$> flight_states steps bullet (range steps)
            (with_game_state (fired (Action.week action) (Action.day action)) renderer)
  else [frame_of NUM_WEEKS NUM_DAYS renderer].

Lemma action_run steps frames action renderer :
  Animator._generate_frames_action NUM_WEEKS NUM_DAYS steps frames action renderer
  = Ok (frames ++ action_frames steps renderer action, after_action steps renderer action).
Proof.
  unfold Animator._generate_frames_action, action_frames, after_action.
  erewrite bind_run; [| by apply on_game_state_run].
  fold (moved (Action.week action) renderer).
  destruct (Action.shoot action).
  - erewrite bind_run; [| apply on_game_state_run, shoot_run].
    unfold Animator._generate_frames_flight. step_by steps_run.
    erewrite bind_run; [| apply on_game_state_run, hit_target_run].
    erewrite bind_run; [| apply on_game_state_run, clear_bullets_run].
    done.
  - unfold Animator.render_frame. step_by render_frame_run. done.
Qed.

Fixpoint actions_frames (steps : Z) (renderer : Renderer.t) (actions : list Action.t)
    : list Image.t :=
  match actions with
  | [] => []
  | action :: actions' =>
      action_frames steps renderer action
      ++ actions_frames steps (after_action steps renderer action) actions'
  end.

Lemma actions_run steps actions frames renderer :
  for_in actions frames (Animator._generate_frames_action NUM_WEEKS NUM_DAYS steps) renderer
  = Ok (frames ++ actions_frames steps renderer actions,
        foldl (after_action steps) renderer actions).
Proof.
  revert frames renderer.
  induction actions as [|action actions IH]; intros frames renderer; simpl.
  - by rewrite app_nil_r.
  - step_by action_run. by rewrite IH, <- app_assoc.
Qed.

Lemma generate_frames_run (self : Animator.t) renderer :
  let actions :=
    BaseStrategy.generate_actions (Animator.strategy self) (Animator.contribution_data self) in
  let renderer' := foldl (after_action 5) renderer actions in
  Animator._generate_frames NUM_WEEKS NUM_DAYS self renderer
  = Ok ([frame_of NUM_WEEKS NUM_DAYS renderer]
        ++ actions_frames 5 renderer actions
        ++ [frame_of NUM_WEEKS NUM_DAYS renderer'; frame_of NUM_WEEKS NUM_DAYS renderer'],
        renderer').
Proof.
  intros actions renderer'. unfold Animator._generate_frames, Animator.render_frame.
  step_by render_frame_run. fold actions.
  step_by actions_run. fold renderer'.
  step_by render_frame_run. step_by render_frame_run.
  unfold mret, M_ret. simpl. by rewrite <- !app_assoc.
Qed.

(** Counting the frames. *)
Definition moves (actions : list Action.t) : nat :=
  length (filter (fun action => Action.shoot action = false) actions).
Definition shots (actions : list Action.t) : nat :=
  length (filter (fun action => Action.shoot action = true) actions).

Lemma flight_states_length steps bullet l renderer :
  length (flight_states steps bullet l renderer) = length l.
Proof.
  revert renderer. induction l as [|step l IH]; intros renderer; simpl; [done|].
  by rewrite IH.
Qed.

Lemma action_frames_length steps renderer action :
  length (action_frames steps renderer action)
  = if Action.shoot action then Z.to_nat steps else 1%nat.
Proof.
  unfold action_frames. destruct (Action.shoot action); [|done].
  rewrite length_fmap, flight_states_length. unfold range. apply length_seqZ.
Qed.

Lemma actions_frames_length steps renderer actions :
  length (actions_frames steps renderer actions)
  = (moves actions + shots actions * Z.to_nat steps)%nat.
Proof.
  revert renderer. unfold moves, shots.
  induction actions as [|action actions IH]; intros renderer; simpl; [done|].
  rewrite length_app, action_frames_length, IH.
  rewrite !filter_cons. destruct (Action.shoot action) eqn:Hshoot.
  - rewrite decide_False by done. rewrite decide_True by done. simpl. lia.
  - rewrite decide_True by done. rewrite decide_False by done. simpl. lia.
Qed.

Lemma generate_frames_length (self : Animator.t) renderer :
  let actions :=
    BaseStrategy.generate_actions (Animator.strategy self) (Animator.contribution_data self) in
  exists frames renderer',
    Animator._generate_frames NUM_WEEKS NUM_DAYS self renderer = Ok (frames, renderer')
    /\ length frames = (1 + moves actions + shots actions * 5 + 2)%nat.
Proof.
  intros actions. eexists _, _. split; [apply generate_frames_run|].
  fold actions. rewrite !length_app, actions_frames_length. simpl. lia.
Qed.
End animator.

(** ** The enemies of a game state *)

Lemma enumerate_from_indices {A} (l : list A) start :
  (enumerate_from start l).*1 = seqZ start (Z.of_nat (length l)).
Proof.
  revert start. induction l as [|x l IH]; intros start; [done|].
  rewrite length_cons, Nat2Z.inj_succ, seqZ_cons by lia. simpl.
  rewrite IH. do 2 f_equal; lia.
Qed.

Lemma enumerate_indices_NoDup {A} (l : list A) : NoDup (enumerate l).*1.
Proof. unfold enumerate. rewrite enumerate_from_indices. apply NoDup_seqZ. Qed.

(** The enemies one week spawns, and the enemies the data spawn. *)
Definition spawn_week (week_idx : Z) (week : ContributionData.Week) : list Enemy.t :=
  '(day_idx, day) ← enumerate (ContributionData.days week);
  if 0 <? ContributionData.level day
  then [Enemy.__init__ week_idx day_idx (ContributionData.level day)]
  else [].

Definition spawn (contribution_data : ContributionData.t) : list Enemy.t :=
  '(week_idx, week) ← enumerate (ContributionData.weeks contribution_data);
  spawn_week week_idx week.

Lemma initialize_week_run week_idx (l : list (Z * ContributionData.Day)) game_state :
  for_in l tt (fun _ '(day_idx, day) =>
    let level := ContributionData.level day in
    if 0 <? level then
      let enemy := Enemy.__init__ week_idx day_idx level in
      modify (fun self => GameState.set_enemies (GameState.enemies self ++ [enemy]) self)
    else mret tt) game_state
  = Ok (tt, GameState.set_enemies
              (GameState.enemies game_state
               ++ ('(day_idx, day) ← l;
                   if 0 <? ContributionData.level day
                   then [Enemy.__init__ week_idx day_idx (ContributionData.level day)]
                   else []))
              game_state).
Proof.
  revert game_state. induction l as [|[day_idx day] l IH]; intros game_state; simpl.
  - rewrite app_nil_r. by destruct game_state.
  - destruct (0 <? ContributionData.level day).
    + step. rewrite IH. simpl. by rewrite <- app_assoc.
    + step. by rewrite IH.
Qed.

Lemma initialize_enemies_run game_state :
  GameState._initialize_enemies game_state
  = Ok (tt, GameState.set_enemies
              (GameState.enemies game_state ++ spawn (GameState.contribution_data game_state))
              game_state).
Proof.
  unfold GameState._initialize_enemies, spawn. step.
  generalize (enumerate (ContributionData.weeks (GameState.contribution_data game_state))).
  intros l. revert game_state.
  induction l as [|[week_idx week] l IH]; intros game_state; simpl.
  - rewrite app_nil_r. by destruct game_state.
  - step_by initialize_week_run. rewrite IH. simpl. by rewrite <- app_assoc.
Qed.

Lemma init_run contribution_data :
  GameState.__init__ contribution_data
  = Ok (GameState.mk contribution_data Ship.__init__ (spawn contribution_data) []).
Proof. unfold GameState.__init__. by rewrite initialize_enemies_run. Qed.

(** Where an enemy stands. *)
Definition position (enemy : Enemy.t) : Z * Z := (Enemy.week enemy, Enemy.day enemy).

Lemma spawn_week_positions week_idx week enemy :
  enemy ∈ spawn_week week_idx week ->
  Enemy.week enemy = week_idx /\ 0 < Enemy.health enemy.
Proof.
  unfold spawn_week. intros Hin.
  apply list_elem_of_bind in Hin as ([day_idx day] & Hin & _).
  destruct (0 <? ContributionData.level day) eqn:Hlevel.
  - apply list_elem_of_singleton in Hin as ->. simpl. lia.
  - by apply not_elem_of_nil in Hin.
Qed.

Lemma spawn_week_NoDup week_idx week : NoDup (position <$> spawn_week week_idx week).
Proof.
  unfold spawn_week. generalize (enumerate_indices_NoDup (ContributionData.days week)).
  generalize (enumerate (ContributionData.days week)). intros l.
  induction l as [|[day_idx day] l IH]; intros Hnodup; simpl; [constructor|].
  apply NoDup_cons in Hnodup as [Hfresh Hnodup].
  destruct (0 <? ContributionData.level day); simpl; [|by apply IH].
  constructor; [|by apply IH].
  intros Hin. apply list_elem_of_fmap in Hin as (enemy & Hpos & Hin).
  apply list_elem_of_bind in Hin as ([day_idx' day'] & Hin & Hl).
  destruct (0 <? ContributionData.level day'); [|by apply not_elem_of_nil in Hin].
  apply list_elem_of_singleton in Hin as ->. unfold position in Hpos. simpl in Hpos.
  apply Hfresh. apply list_elem_of_fmap. exists (day_idx', day'). split; [|done].
  simpl. congruence.
Qed.

Lemma spawn_NoDup contribution_data : NoDup (position <$> spawn contribution_data).
Proof.
  unfold spawn.
  generalize (enumerate_indices_NoDup (ContributionData.weeks contribution_data)).
  generalize (enumerate (ContributionData.weeks contribution_data)). intros l.
  induction l as [|[week_idx week] l IH]; intros Hnodup; simpl; [constructor|].
  apply NoDup_cons in Hnodup as [Hfresh Hnodup].
  rewrite fmap_app. apply NoDup_app. split; [apply spawn_week_NoDup|].
  split; [|by apply IH].
  intros pos Hin1 Hin2.
  apply list_elem_of_fmap in Hin1 as (enemy1 & -> & Hin1).
  apply spawn_week_positions in Hin1 as [Hweek1 _].
  apply list_elem_of_fmap in Hin2 as (enemy2 & Hpos & Hin2).
  apply list_elem_of_bind in Hin2 as ([week_idx' week'] & Hin2 & Hl).
  apply spawn_week_positions in Hin2 as [Hweek2 _].
  apply Hfresh. apply list_elem_of_fmap. exists (week_idx', week'). split; [|done].
  simpl. unfold position in Hpos. congruence.
Qed.

Lemma spawn_alive contribution_data enemy :
  enemy ∈ spawn contribution_data -> 0 < Enemy.health enemy.
Proof.
  unfold spawn. intros Hin.
  apply list_elem_of_bind in Hin as ([week_idx week] & Hin & _).
  by apply spawn_week_positions in Hin as [_ ?].
Qed.

(** ** Damage *)

(** An enemy after one point of damage. *)
Definition damaged (enemy : Enemy.t) : Enemy.t :=
  Enemy.mk (Enemy.week enemy) (Enemy.day enemy) (Enemy.health enemy - 1)
           (Enemy.max_health enemy).

(** No two enemies stand on one cell, and no health is negative. *)
Definition sound (game_state : GameState.t) : Prop :=
  NoDup (position <$> GameState.enemies game_state)
  /\ Forall (fun enemy => 0 <= Enemy.health enemy) (GameState.enemies game_state).

Lemma find_own_position game_state (i : nat) enemy :
  NoDup (position <$> GameState.enemies game_state) ->
  GameState.enemies game_state !! i = Some enemy ->
  Enemy.is_alive enemy = true ->
  list_find (GameState.targets (Enemy.week enemy) (Enemy.day enemy))
            (GameState.enemies game_state) = Some (i, enemy).
Proof.
  intros Hnodup Hi Halive. apply list_find_Some. split_and!; [done|done|].
  intros j other Hj Hlt (Hweek & Hday & _).
  assert (i = j); [|lia].
  apply (NoDup_lookup _ _ _ (position enemy) Hnodup).
  - by rewrite list_lookup_fmap, Hi.
  - rewrite list_lookup_fmap, Hj. unfold position. simpl. by rewrite Hweek, Hday.
Qed.

Lemma find_none_at_dead game_state (i : nat) enemy :
  NoDup (position <$> GameState.enemies game_state) ->
  GameState.enemies game_state !! i = Some enemy ->
  Enemy.is_alive enemy = false ->
  list_find (GameState.targets (Enemy.week enemy) (Enemy.day enemy))
            (GameState.enemies game_state) = None.
Proof.
  intros Hnodup Hi Hdead. apply list_find_None, Forall_forall.
  intros other Hin (Hweek & Hday & Halive).
  apply list_elem_of_lookup in Hin as [j Hj].
  assert (i = j) as <-.
  { apply (NoDup_lookup _ _ _ (position enemy) Hnodup).
    - by rewrite list_lookup_fmap, Hi.
    - rewrite list_lookup_fmap, Hj. unfold position. simpl. by rewrite Hweek, Hday. }
  congruence.
Qed.

Lemma hit_sound week day game_state : sound game_state -> sound (hit week day game_state).
Proof.
  intros [Hnodup Hhealth]. unfold hit.
  destruct (list_find _ _) as [[ref enemy]|] eqn:Hfind; [|done].
  apply list_find_Some in Hfind as (Href & (_ & _ & Halive) & _).
  split; simpl.
  - rewrite (list_fmap_alter _ _ id), list_alter_id; [done..|].
    by apply Forall_forall.
  - apply Forall_alter; [done|]. intros x Hx _.
    assert (x = enemy) as -> by congruence.
    unfold Enemy.is_alive in Halive. simpl. lia.
Qed.

(** The operations of a game state, and a run of them. *)
Inductive Op : Type :=
  | OpShoot (week day : Z)
  | OpHitTarget (week day : Z)
  | OpClearBullets
  | OpMoveShip (week : Z).

Definition perform (op : Op) : M GameState.t unit :=
  match op with
  | OpShoot week day => GameState.shoot week day;; mret tt
  | OpHitTarget week day => GameState.hit_target week day
  | OpClearBullets => GameState.clear_bullets
  | OpMoveShip week =>
      modify (fun game_state =>
        GameState.set_ship (Ship.move_to (GameState.ship game_state) week) game_state)
  end.

(** [GameState(contribution_data)], then the operations in order. *)
Definition play (contribution_data : ContributionData.t) (ops : list Op)
    : Result (unit * GameState.t) :=
  game_state ← GameState.__init__ contribution_data;
  for_in ops tt (fun _ op => perform op) game_state.

Lemma perform_sound op game_state :
  sound game_state ->
  exists game_state', perform op game_state = Ok (tt, game_state') /\ sound game_state'.
Proof.
  intros Hsound. destruct op as [week day|week day| |week]; simpl.
  - eexists. split; [by step|]. done.
  - eexists. split; [apply hit_target_run|]. by apply hit_sound.
  - eexists. split; [done|]. done.
  - eexists. split; [done|]. done.
Qed.

Lemma play_sound contribution_data ops :
  exists game_state, play contribution_data ops = Ok (tt, game_state) /\ sound game_state.
Proof.
  unfold play. rewrite init_run. simpl.
  assert (Hsound : sound (GameState.mk contribution_data Ship.__init__
                            (spawn contribution_data) [])).
  { split; simpl; [apply spawn_NoDup|].
    apply Forall_forall. intros enemy Hin. apply spawn_alive in Hin. lia. }
  revert Hsound. generalize (GameState.mk contribution_data Ship.__init__
                               (spawn contribution_data) []).
  induction ops as [|op ops IH]; intros game_state Hsound; simpl.
  - by eexists.
  - destruct (perform_sound op game_state Hsound) as (game_state' & Hrun & Hsound').
    rewrite (bind_run _ _ _ _ _ Hrun). by apply IH.
Qed.

(** C4.  Whatever operations a game state built from contribution data has
    gone through, it is reached without an exception and in it: no enemy's
    health is below 0; an enemy is non-alive exactly when its health is 0;
    [hit_target] at the position of an alive enemy lowers that enemy's health
    by exactly 1 and touches nothing else; [hit_target] at the position of an
    enemy that is no longer alive changes nothing. *)
Theorem hit_target_damage (contribution_data : ContributionData.t) (ops : list Op) :
  exists game_state,
    play contribution_data ops = Ok (tt, game_state)
    /\ Forall (fun enemy => 0 <= Enemy.health enemy) (GameState.enemies game_state)
    /\ forall (i : nat) (enemy : Enemy.t),
         GameState.enemies game_state !! i = Some enemy ->
         (Enemy.is_alive enemy = false <-> Enemy.health enemy = 0)
         /\ exists game_state',
              GameState.hit_target (Enemy.week enemy) (Enemy.day enemy) game_state
              = Ok (tt, game_state')
              /\ if Enemy.is_alive enemy
                 then game_state'
                      = GameState.set_enemies
                          (<[i := Enemy.mk (Enemy.week enemy) (Enemy.day enemy)
                                           (Enemy.health enemy - 1)
                                           (Enemy.max_health enemy)]>
                             (GameState.enemies game_state))
                          game_state
                 else game_state' = game_state.
Proof.
  destruct (play_sound contribution_data ops) as (game_state & Hplay & Hnodup & Hhealth).
  exists game_state. split_and!; [done..|].
  intros i enemy Hi. split.
  - assert (0 <= Enemy.health enemy).
    { eapply Forall_forall in Hhealth; [done|]. apply list_elem_of_lookup. eauto. }
    unfold Enemy.is_alive. rewrite Z.ltb_ge. lia.
  - eexists. split; [apply hit_target_run|]. unfold hit.
    destruct (Enemy.is_alive enemy) eqn:Halive.
    + rewrite (find_own_position _ i enemy) by done.
      f_equal. rewrite list_insert_alter.
      apply list_eq. intros j. rewrite !list_lookup_alter.
      case_decide; [|done]. subst j. by rewrite Hi.
    + by rewrite (find_none_at_dead _ i enemy).
Qed.

(** C5.  Where no enemy at [(week, day)] is alive, [hit_target] returns
    without an exception and leaves the whole game state (contribution data,
    ship, enemies, bullets) as it was. *)
Theorem hit_target_no_live_enemy (week day : Z) (game_state : GameState.t) :
  (forall enemy, enemy ∈ GameState.enemies game_state ->
     Enemy.week enemy = week -> Enemy.day enemy = day -> Enemy.is_alive enemy = false) ->
  GameState.hit_target week day game_state = Ok (tt, game_state).
Proof.
  intros Hnone. rewrite hit_target_run. unfold hit.
  replace (list_find _ _) with (@None (nat * Enemy.t)); [done|].
  symmetry. apply list_find_None, Forall_forall.
  intros enemy Hin (Hweek & Hday & Halive).
  specialize (Hnone enemy Hin Hweek Hday). congruence.
Qed.

(** C10.  [take_damage] lowers the health by exactly 1 whatever it was,
    leaves the other fields, and returns [True] exactly when the new health
    is at most 0; at health 0 it yields health -1, where [hit_target] on the
    same enemy changes nothing. *)
Theorem take_damage_unclamped (enemy : Enemy.t) :
  Enemy.take_damage enemy
  = (bool_decide (Enemy.health enemy - 1 <= 0),
     Enemy.mk (Enemy.week enemy) (Enemy.day enemy) (Enemy.health enemy - 1)
              (Enemy.max_health enemy))
  /\ Enemy.take_damage
       (Enemy.mk (Enemy.week enemy) (Enemy.day enemy) 0 (Enemy.max_health enemy))
     = (true, Enemy.mk (Enemy.week enemy) (Enemy.day enemy) (-1) (Enemy.max_health enemy))
  /\ forall contribution_data ship bullets,
       let game_state :=
         GameState.mk contribution_data ship
           [Enemy.mk (Enemy.week enemy) (Enemy.day enemy) 0 (Enemy.max_health enemy)]
           bullets in
       GameState.hit_target (Enemy.week enemy) (Enemy.day enemy) game_state
       = Ok (tt, game_state).
Proof.
  split_and!.
  - unfold Enemy.take_damage. simpl. f_equal.
    destruct (Z.leb_spec (Enemy.health enemy - 1) 0).
    + by rewrite bool_decide_eq_true_2.
    + rewrite bool_decide_eq_false_2; [done|lia].
  - done.
  - intros contribution_data ship bullets game_state.
    rewrite hit_target_run. unfold hit. simpl.
    rewrite decide_False; [done|]. by intros (_ & _ & ?).
Qed.

(** ** Rendering *)

Lemma bind_singletons_length {A B} (f : A -> B) (l : list A) :
  length (x ← l; [f x]) = length l.
Proof. induction l as [|x l IH]; csimpl; [done|]. by rewrite IH. Qed.

Lemma bind_constant_length {A B} (f : A -> list B) (l : list A) (n : nat) :
  (forall x, length (f x) = n) -> length (l ≫= f) = (length l * n)%nat.
Proof.
  intros Hf. induction l as [|x l IH]; csimpl; [done|].
  by rewrite length_app, Hf, IH.
Qed.

Section rendering.
Variables NUM_WEEKS NUM_DAYS : Z.

(** C6.  [render_frame] returns an image created with the background
    colour on which it has painted, in this order: every cell of the
    [NUM_WEEKS] x [NUM_DAYS] grid in the empty-cell colour, the enemies
    that are alive, the bullets, and the ship last.  The ship is painted
    whatever its week: for a negative week (the [-1] it starts with) the
    triangle lies left of the first column. *)
Theorem render_frame_paint_order (renderer : Renderer.t) :
  let game_state := Renderer.game_state renderer in
  let context := Renderer._create_context renderer in
  let padding := Renderer.padding renderer in
  let ship := GameState.ship game_state in
  let ship_x := if 0 <=? Ship.week ship then padding + Ship.week ship * 14
                else padding - 20 in
  let ship_y := padding + NUM_DAYS * 14 + 10 in
  let cell week day fill :=
    rectangle (padding + week * 14) (padding + day * 14)
              (padding + week * 14 + 12) (padding + day * 14 + 12) fill in
  let grid :=
    week ← range NUM_WEEKS; day ← range NUM_DAYS; [cell week day Renderer.COLOR_EMPTY] in
  let alive :=
    filter (fun enemy => Enemy.is_alive enemy = true) (GameState.enemies game_state) in
  exists img,
    Renderer.render_frame NUM_WEEKS NUM_DAYS renderer = Ok (img, renderer)
    /\ Image.size img = (Renderer.width renderer, Renderer.height renderer)
    /\ Image.color img = Renderer.COLOR_BACKGROUND
    /\ Image.drawn img
       = grid
         ++ ((fun enemy =>
                cell (Enemy.week enemy) (Enemy.day enemy)
                     (dict_get Renderer.COLOR_ENEMY (Enemy.health enemy) (0, 109, 50)))
               <$> alive)
         ++ (bullet_op NUM_DAYS context <$> GameState.bullets game_state)
         ++ [polygon [ (ship_x + 6, ship_y); (ship_x, ship_y + 12);
                       (ship_x + 12, ship_y + 12) ]
                     Renderer.COLOR_SHIP]
    /\ length grid = (Z.to_nat NUM_WEEKS * Z.to_nat NUM_DAYS)%nat
    /\ (Ship.week ship < 0 -> ship_x + 12 < padding).
Proof.
  intros game_state context padding ship ship_x ship_y cell grid alive.
  exists (frame_of NUM_WEEKS NUM_DAYS renderer).
  split_and!; [apply render_frame_run|done|done|done| |].
  - unfold grid. erewrite bind_constant_length.
    + unfold range. by rewrite length_seqZ.
    + intros week. rewrite bind_singletons_length. unfold range. apply length_seqZ.
  - intros Hweek. unfold ship_x.
    destruct (Z.leb_spec 0 (Ship.week ship)); lia.
Qed.

(** C9.  [render_frame] raises nothing and leaves the renderer, and the
    game state it refers to, as they were; called twice in a row it
    returns the same image twice. *)
Theorem render_frame_idempotent (renderer : Renderer.t) :
  exists img,
    Renderer.render_frame NUM_WEEKS NUM_DAYS renderer = Ok (img, renderer)
    /\ (first ← Renderer.render_frame NUM_WEEKS NUM_DAYS;
        second ← Renderer.render_frame NUM_WEEKS NUM_DAYS;
        mret (first, second)) renderer
       = Ok ((img, img), renderer).
Proof.
  exists (frame_of NUM_WEEKS NUM_DAYS renderer).
  split; [apply render_frame_run|].
  step_by render_frame_run. step_by render_frame_run. done.
Qed.
End rendering.

(** C7.  An enemy that is alive is painted, without an exception, in the
    colour [COLOR_ENEMY] holds for its current health, whatever its
    [max_health]; the keys of [COLOR_ENEMY] are 1 to 4, and for a health
    above 4 the colour is the one of level 1. *)
Theorem enemy_colour_by_health (renderer : Renderer.t) (enemy : Enemy.t) (img : Image.t) :
  Enemy.is_alive enemy = true ->
  let context := Renderer._create_context renderer in
  exists fill,
    Enemy.draw enemy img context
    = Ok (Image.paint (cell_rect context fill (Enemy.week enemy) (Enemy.day enemy)) img)
    /\ (forall colour,
          Renderer.COLOR_ENEMY !! Enemy.health enemy = Some colour -> fill = colour)
    /\ (forall key, is_Some (Renderer.COLOR_ENEMY !! key) <-> 1 <= key <= 4)
    /\ Renderer.COLOR_ENEMY !! 1 = Some (0, 109, 50)
    /\ (4 < Enemy.health enemy -> fill = (0, 109, 50))
    /\ forall max_health,
         Enemy.draw (Enemy.mk (Enemy.week enemy) (Enemy.day enemy) (Enemy.health enemy)
                              max_health) img context
         = Enemy.draw enemy img context.
Proof.
  intros Halive context.
  exists (dict_get Renderer.COLOR_ENEMY (Enemy.health enemy) (0, 109, 50)).
  split_and!.
  - by apply Enemy_draw_alive.
  - intros colour Hcolour. unfold dict_get. by rewrite Hcolour.
  - apply COLOR_ENEMY_keys.
  - done.
  - intros Hhigh. unfold dict_get.
    destruct (Renderer.COLOR_ENEMY !! Enemy.health enemy) as [colour|] eqn:Hcolour; [|done].
    assert (1 <= Enemy.health enemy <= 4); [|lia].
    apply COLOR_ENEMY_keys. by eexists.
  - done.
Qed.

(** ** The sequence of frames *)

Lemma hit_set_bullets week day bullets game_state :
  hit week day (GameState.set_bullets bullets game_state)
  = GameState.set_bullets bullets (hit week day game_state).
Proof. unfold hit. simpl. by destruct (list_find _ _) as [[ref enemy]|]. Qed.

Lemma advanced_last steps step old bullet renderer :
  advanced steps (length old) step
    (with_game_state (GameState.set_bullets (old ++ [bullet])) renderer)
  = with_game_state
      (GameState.set_bullets
         (old ++ [Bullet.set_progress bullet (int_truediv (step + 1) steps)]))
      renderer.
Proof.
  unfold advanced, with_game_state. destruct renderer as [game_state ? ? ? ? ?]. simpl.
  unfold Renderer.set_game_state, GameState.set_bullets. simpl. do 2 f_equal.
  rewrite <- (Nat.add_0_r (length old)). by rewrite alter_app_r.
Qed.

Lemma with_game_state_twice f g renderer :
  with_game_state f (with_game_state g renderer)
  = with_game_state (fun game_state => f (g game_state)) renderer.
Proof. by destruct renderer. Qed.

Lemma after_action_no_bullets steps renderer action :
  GameState.bullets (Renderer.game_state renderer) = [] ->
  GameState.bullets (Renderer.game_state (after_action steps renderer action)) = [].
Proof.
  intros Hnone. unfold after_action. by destruct (Action.shoot action).
Qed.

Section sequencer.
Variables NUM_WEEKS NUM_DAYS : Z.

(** C1.  For the actions the strategy yields, [m] of them moves and [k]
    of them shots, [_generate_frames] returns [1 + m + k * 5 + 2] frames;
    for a strategy that yields no action it returns 3 frames. *)
Theorem generate_frames_count (self : Animator.t) (renderer : Renderer.t) :
  let actions :=
    BaseStrategy.generate_actions (Animator.strategy self) (Animator.contribution_data self) in
  let m := length (filter (fun action => Action.shoot action = false) actions) in
  let k := length (filter (fun action => Action.shoot action = true) actions) in
  let idle :=
    Animator.mk (Animator.contribution_data self) (BaseStrategy.mk (fun _ => []))
                (Animator.frame_duration self) in
  (exists frames renderer',
     Animator._generate_frames NUM_WEEKS NUM_DAYS self renderer = Ok (frames, renderer')
     /\ length frames = (1 + m + k * 5 + 2)%nat)
  /\ (exists frames renderer',
        Animator._generate_frames NUM_WEEKS NUM_DAYS idle renderer = Ok (frames, renderer')
        /\ length frames = 3%nat).
Proof.
  intros actions m k idle. split.
  - apply generate_frames_length.
  - apply (generate_frames_length NUM_WEEKS NUM_DAYS idle).
Qed.

(** C2, as the code has it.  [_generate_frames] has no ceiling: it
    returns at least one frame per action besides the three fixed ones,
    so for every cap there are actions ([cap + 1] moves) for which it
    returns more than [cap + 2] frames. *)
Theorem generate_frames_unbounded (cap : nat) (self : Animator.t) (renderer : Renderer.t) :
  let actions :=
    BaseStrategy.generate_actions (Animator.strategy self) (Animator.contribution_data self) in
  let busy :=
    Animator.mk (Animator.contribution_data self)
                (BaseStrategy.mk (fun _ => replicate (S cap) (Action.mk 0 0 false)))
                (Animator.frame_duration self) in
  (exists frames renderer',
     Animator._generate_frames NUM_WEEKS NUM_DAYS self renderer = Ok (frames, renderer')
     /\ (3 + length actions <= length frames)%nat)
  /\ (exists frames renderer',
        Animator._generate_frames NUM_WEEKS NUM_DAYS busy renderer = Ok (frames, renderer')
        /\ (cap + 2 < length frames)%nat).
Proof.
  assert (Hlower : forall actions : list Action.t,
            (length actions <= moves actions + shots actions * 5)%nat).
  { unfold moves, shots. induction actions as [|action actions IH]; simpl; [done|].
    rewrite !filter_cons. destruct (Action.shoot action).
    - rewrite decide_False by done. rewrite decide_True by done. simpl. lia.
    - rewrite decide_True by done. rewrite decide_False by done. simpl. lia. }
  intros actions busy. split.
  - destruct (generate_frames_length NUM_WEEKS NUM_DAYS self renderer)
      as (frames & renderer' & Hrun & Hlen).
    exists frames, renderer'. split; [done|]. rewrite Hlen.
    pose proof (Hlower actions). fold actions. lia.
  - destruct (generate_frames_length NUM_WEEKS NUM_DAYS busy renderer)
      as (frames & renderer' & Hrun & Hlen).
    exists frames, renderer'. split; [done|]. rewrite Hlen.
    pose proof (Hlower (replicate (S cap) (Action.mk 0 0 false))) as Hle.
    rewrite length_replicate in Hle. simpl in *. lia.
Qed.

(** C8.  The animator's handling of a shoot action, for the ship moved
    to the action's week.  [shoot] appends one bullet with progress 0.0 and
    leaves the enemies alone.  Five frames are added, frame [step] being
    what [render_frame] returns when the new bullet has progress
    [(step + 1) / 5] and ship, enemies and older bullets are as before the
    shot.  The progress values rise strictly from 0.0 and the last is 1.0.
    Afterwards the enemies are what [hit_target] makes of them and there is
    no bullet; so a run that starts without bullets has none whenever an
    action begins. *)
Theorem shoot_episode (renderer : Renderer.t) (frames : list Image.t) (action : Action.t) :
  Action.shoot action = true ->
  let week := Action.week action in
  let day := Action.day action in
  let aimed := moved week renderer in
  let game_state := Renderer.game_state aimed in
  let old := GameState.bullets game_state in
  let in_flight (step : Z) :=
    with_game_state
      (GameState.set_bullets (old ++ [Bullet.mk week day (int_truediv (step + 1) 5)]))
      aimed in
  GameState.shoot week day game_state
  = Ok (length old,
        GameState.set_bullets (old ++ [Bullet.mk week day 0%float]) game_state)
  /\ (exists flight game_state' renderer',
        Animator._generate_frames_action NUM_WEEKS NUM_DAYS 5 frames action renderer
        = Ok (frames ++ flight, renderer')
        /\ Forall2 (fun frame step =>
                      Renderer.render_frame NUM_WEEKS NUM_DAYS (in_flight step)
                      = Ok (frame, in_flight step))
                   flight (range 5)
        /\ GameState.hit_target week day game_state = Ok (tt, game_state')
        /\ Renderer.game_state renderer' = GameState.set_bullets [] game_state')
  /\ Forall (fun step =>
               PrimFloat.ltb (int_truediv step 5) (int_truediv (step + 1) 5) = true)
            (range 5)
  /\ int_truediv 0 5 = 0%float
  /\ int_truediv 5 5 = 1%float
  /\ forall (actions : list Action.t) (frames0 : list Image.t),
       exists frames' renderer',
         for_in actions frames0 (Animator._generate_frames_action NUM_WEEKS NUM_DAYS 5)
                renderer
         = Ok (frames', renderer')
         /\ (GameState.bullets (Renderer.game_state renderer) = [] ->
             GameState.bullets (Renderer.game_state renderer') = []).
Proof.
  intros Hshoot week day aimed game_state old in_flight. split_and!.
  - done.
  - exists (frame_of NUM_WEEKS NUM_DAYS <$> (in_flight <$> range 5)),
           (hit week day game_state),
           (with_game_state (fun _ => GameState.set_bullets [] (hit week day game_state))
                            aimed).
    split_and!.
    + rewrite action_run. unfold action_frames, after_action. rewrite Hshoot.
      fold week day aimed game_state old.
      change (range 5) with [0; 1; 2; 3; 4].
      change (with_game_state (fired week day) aimed)
        with (with_game_state
                (GameState.set_bullets (old ++ [Bullet.mk week day 0%float])) aimed).
      simpl. rewrite !advanced_last. simpl.
      do 2 f_equal. rewrite !with_game_state_twice.
      unfold with_game_state. by rewrite hit_set_bullets.
    + apply Forall2_fmap_l, Forall2_fmap_l, Forall_Forall2_diag, Forall_forall.
      intros step _. apply render_frame_run.
    + apply hit_target_run.
    + by destruct aimed.
  - by repeat constructor.
  - done.
  - done.
  - intros actions frames0. eexists _, _. split; [apply actions_run|].
    generalize renderer. induction actions as [|a actions IH]; intros r Hnone; simpl.
    + done.
    + by apply IH, after_action_no_bullets.
Qed.
End sequencer.

(** ** The endpoint's strategy selector *)

Lemma get_unknown (strategy : string) :
  strategy <> "column"%string -> strategy <> "row"%string -> strategy <> "random"%string ->
  App.get App.STRATEGY_MAP strategy App.RandomStrategy = App.RandomStrategy
  /\ App.contains App.STRATEGY_MAP strategy = false.
Proof.
  intros Hcolumn Hrow Hrandom. split.
  - unfold App.STRATEGY_MAP. cbn [App.get].
    destruct (String.eqb_spec "column" strategy); [done|].
    destruct (String.eqb_spec "row" strategy); [done|].
    by destruct (String.eqb_spec "random" strategy).
  - unfold App.contains. apply bool_decide_eq_false_2. simpl.
    rewrite !elem_of_cons. intros [?|[?|[?|Hnil]]]; [done..|].
    by apply not_elem_of_nil in Hnil.
Qed.

Section selector.
Variables Data BytesIO : Type.
Variable get_contribution_graph : string -> string -> Result Data.
Variable animate : Data -> App.StrategyClass -> Result BytesIO.

(** C3, as the code has it.  For a selector that is none of [column],
    [row], [random]: [generate_gif] selects the random strategy and does
    what it does for the selector [random]; the endpoint [generate], given
    a token, answers 400 with the list of the valid selectors, whatever
    the collaborators would return. *)
Theorem unknown_strategy (token username strategy : string) :
  strategy <> "column"%string -> strategy <> "row"%string -> strategy <> "random"%string ->
  token <> EmptyString ->
  App.get App.STRATEGY_MAP strategy App.RandomStrategy = App.RandomStrategy
  /\ App.generate_gif Data BytesIO get_contribution_graph animate username strategy token
     = App.generate_gif Data BytesIO get_contribution_graph animate username "random" token
  /\ App.generate Data BytesIO get_contribution_graph animate (Some token) username strategy
     = App.HTTPException 400 "Invalid strategy. Choose from: column, row, random".
Proof.
  intros Hcolumn Hrow Hrandom Htoken.
  destruct (get_unknown strategy Hcolumn Hrow Hrandom) as [Hget Hcontains].
  split_and!.
  - done.
  - unfold App.generate_gif. by rewrite Hget.
  - unfold App.generate. rewrite bool_decide_eq_false_2 by done.
    by rewrite Hcontains.
Qed.
End selector.

(** * Concrete runs *)

(** A grid of one week of one day, level 3, and its single shot. *)
Definition one_cell : ContributionData.t :=
  ContributionData.mk [ContributionData.mkWeek [ContributionData.mkDay 3]].

Definition one_shot : BaseStrategy.t :=
  BaseStrategy.mk (fun _ => [Action.mk 0 0 true]).

Definition frame_total (file : Result (option Animator.GifFile)) : option nat :=
  match file with
  | Ok (Some gif) => Some (length (Animator.gif_frames gif))
  | _ => None
  end.

Example one_cell_eight_frames :
  frame_total (Animator.generate_gif 1 1 (Animator.mk one_cell one_shot 100)) = Some 8%nat.
Proof. vm_compute. reflexivity. Qed.

Example empty_grid_three_frames :
  frame_total
    (Animator.generate_gif 52 7
       (Animator.mk (ContributionData.mk
                       (replicate 52 (ContributionData.mkWeek
                                        (replicate 7 (ContributionData.mkDay 0)))))
                    (BaseStrategy.mk (fun _ => [])) 100))
  = Some 3%nat.
Proof. vm_compute. reflexivity. Qed.

(** The enemy of [one_cell] is painted in the colour of level 3 in the
    first frame and of level 2 in the last. *)
Example one_cell_colours :
  match Animator.generate_gif 1 1 (Animator.mk one_cell one_shot 100) with
  | Ok (Some gif) =>
      (fun i : nat => frame ← Animator.gif_frames gif !! i; Image.drawn frame !! 1%nat)
        <$> [0%nat; 7%nat]
  | _ => []
  end
  = [Some (rectangle 40 40 52 52 (57, 211, 83)); Some (rectangle 40 40 52 52 (38, 166, 65))].
Proof. vm_compute. reflexivity. Qed.

(** ** C2: a dense grid *)

(** Every cell of a 52 x 7 grid at level 1, and one shot per cell, week by
    week. *)
Definition full_grid : ContributionData.t :=
  ContributionData.mk
    (replicate 52 (ContributionData.mkWeek (replicate 7 (ContributionData.mkDay 1)))).

Definition sweep : BaseStrategy.t :=
  BaseStrategy.mk (fun _ => week ← range 52; day ← range 7; [Action.mk week day true]).

(** C2 fails on the code: for the full grid the animator returns 1823
    frames, which no ceiling of 250 frames (the number the web application
    asks for) plus two completion frames allows. *)
Lemma frame_ceiling_counterexample :
  exists game_state frames renderer',
    GameState.__init__ full_grid = Ok game_state
    /\ Animator._generate_frames 52 7 (Animator.mk full_grid sweep 100)
         (Renderer.__init__ 52 7 game_state)
       = Ok (frames, renderer')
    /\ length frames = 1823%nat
    /\ ~ (length frames <= 250 + 2)%nat.
Proof.
  eexists. 
  destruct (generate_frames_length 52 7 (Animator.mk full_grid sweep 100)
              (Renderer.__init__ 52 7
                 (GameState.mk full_grid Ship.__init__ (spawn full_grid) [])))
    as (frames & renderer' & Hrun & Hlen).
  exists frames, renderer'.
  assert (Htotal : length frames = 1823%nat).
  { rewrite Hlen. vm_compute. reflexivity. }
  split_and!; [apply init_run|exact Hrun|exact Htotal|].
  rewrite Htotal. lia.
Qed.

(** ** C3: an unknown selector at the endpoint *)

(** C3 fails on the code: with a token configured and collaborators that
    succeed (the animation stands for the strategy class it was made with),
    [generate_gif] accepts the selector [diagonal], but the endpoint answers
    400 and no animation. *)
Lemma unknown_strategy_counterexample :
  App.generate_gif unit App.StrategyClass (fun _ _ => Ok tt) (fun _ class => Ok class)
    "octocat" "diagonal" "token"
  = Ok App.RandomStrategy
  /\ App.generate unit App.StrategyClass (fun _ _ => Ok tt) (fun _ class => Ok class)
       (Some "token"%string) "octocat" "diagonal"
     = App.HTTPException 400 "Invalid strategy. Choose from: column, row, random".
Proof. split; reflexivity. Qed.

(** ** Instances of the conditional properties *)

Lemma hit_target_damage_witness :
  exists game_state game_state',
    play one_cell [OpHitTarget 0 0; OpHitTarget 0 0] = Ok (tt, game_state)
    /\ GameState.enemies game_state = [Enemy.mk 0 0 1 3]
    /\ GameState.hit_target 0 0 game_state = Ok (tt, game_state')
    /\ GameState.enemies game_state' = [Enemy.mk 0 0 0 3]
    /\ GameState.hit_target 0 0 game_state' = Ok (tt, game_state').
Proof.
  destruct (hit_target_damage one_cell [OpHitTarget 0 0; OpHitTarget 0 0])
    as (game_state & Hplay & _ & Hhit).
  assert (Hstate : game_state = GameState.mk one_cell Ship.__init__ [Enemy.mk 0 0 1 3] []).
  { vm_compute in Hplay. injection Hplay as <-. reflexivity. }
  destruct (Hhit 0%nat (Enemy.mk 0 0 1 3)) as (_ & game_state' & Hrun & Hafter).
  { by rewrite Hstate. }
  simpl in Hrun, Hafter.
  exists game_state, game_state'.
  split_and!; [done|by rewrite Hstate|done|by rewrite Hafter, Hstate|].
  rewrite Hafter, Hstate. reflexivity.
Defined.

Lemma hit_target_no_live_enemy_witness :
  GameState.hit_target 3 4
    (GameState.mk one_cell Ship.__init__ [Enemy.mk 3 4 0 2; Enemy.mk 1 1 2 2] [])
  = Ok (tt, GameState.mk one_cell Ship.__init__ [Enemy.mk 3 4 0 2; Enemy.mk 1 1 2 2] []).
Proof.
  apply hit_target_no_live_enemy. intros enemy Hin Hweek Hday.
  apply elem_of_cons in Hin as [->|Hin]; [reflexivity|].
  apply elem_of_cons in Hin as [->|Hin]; [discriminate Hweek|].
  by apply not_elem_of_nil in Hin.
Defined.

(** A cell of level 9 is painted in the colour of level 1. *)
Lemma enemy_colour_by_health_witness :
  Enemy.draw (Enemy.mk 2 3 9 9) (Image.new "RGB" (808, 178) Renderer.COLOR_BACKGROUND)
    (Renderer._create_context
       (Renderer.__init__ 52 7 (GameState.mk one_cell Ship.__init__ [Enemy.mk 2 3 9 9] [])))
  = Ok (Image.paint (rectangle 68 82 80 94 (0, 109, 50))
          (Image.new "RGB" (808, 178) Renderer.COLOR_BACKGROUND)).
Proof.
  destruct (enemy_colour_by_health
              (Renderer.__init__ 52 7
                 (GameState.mk one_cell Ship.__init__ [Enemy.mk 2 3 9 9] []))
              (Enemy.mk 2 3 9 9)
              (Image.new "RGB" (808, 178) Renderer.COLOR_BACKGROUND) eq_refl)
    as (fill & Hdraw & _ & _ & _ & Hhigh & _).
  rewrite Hdraw, Hhigh; [reflexivity|simpl; lia].
Defined.

Lemma shoot_episode_witness :
  exists flight renderer',
    Animator._generate_frames_action 1 1 5 [] (Action.mk 0 0 true)
      (Renderer.__init__ 1 1 (GameState.mk one_cell Ship.__init__ [Enemy.mk 0 0 3 3] []))
    = Ok (flight, renderer')
    /\ length flight = 5%nat
    /\ GameState.enemies (Renderer.game_state renderer') = [Enemy.mk 0 0 2 3]
    /\ GameState.bullets (Renderer.game_state renderer') = [].
Proof.
  destruct (shoot_episode 1 1
              (Renderer.__init__ 1 1
                 (GameState.mk one_cell Ship.__init__ [Enemy.mk 0 0 3 3] []))
              [] (Action.mk 0 0 true) eq_refl)
    as (_ & (flight & game_state' & renderer' & Hrun & Hflight & Hhit & Hfinal) & _).
  exists flight, renderer'.
  apply Forall2_length in Hflight.
  vm_compute in Hhit. injection Hhit as <-.
  split_and!; [exact Hrun|by rewrite Hflight|by rewrite Hfinal..].
Defined.

Lemma unknown_strategy_witness :
  App.get App.STRATEGY_MAP "diagonal" App.RandomStrategy = App.RandomStrategy
  /\ App.generate unit App.StrategyClass (fun _ _ => Ok tt) (fun _ class => Ok class)
       (Some "token"%string) "octocat" "diagonal"
     = App.HTTPException 400 "Invalid strategy. Choose from: column, row, random".
Proof.
  destruct (unknown_strategy unit App.StrategyClass (fun _ _ => Ok tt)
              (fun _ class => Ok class) "token" "octocat" "diagonal")
    as (Hget & _ & Hgenerate); [discriminate..|].
  split; [exact Hget|exact Hgenerate].
Defined.

(** * Further properties of the code *)

(** ** A new game state *)

Lemma enumerate_from_elem {A} (l : list A) (start i : Z) (x : A) :
  (i, x) ∈ enumerate_from start l
  <-> exists n : nat, i = start + Z.of_nat n /\ l !! n = Some x.
Proof.
  revert start. induction l as [|y l IH]; intros start; simpl.
  - split; [by intros ?%not_elem_of_nil|]. by intros (n & _ & ?).
  - rewrite elem_of_cons, IH. split.
    + intros [[= -> ->]|(n & -> & Hn)].
      * exists 0%nat. split; [lia|done].
      * exists (S n). split; [lia|done].
    + intros ([|n] & -> & Hn); simpl in Hn.
      * left. f_equal; [lia|congruence].
      * right. exists n. split; [lia|done].
Qed.

Lemma enumerate_elem {A} (l : list A) (i : Z) (x : A) :
  (i, x) ∈ enumerate l <-> exists n : nat, i = Z.of_nat n /\ l !! n = Some x.
Proof. unfold enumerate. rewrite enumerate_from_elem. by setoid_rewrite Z.add_0_l. Qed.

Lemma spawn_elem contribution_data enemy :
  enemy ∈ spawn contribution_data
  <-> exists (w d : nat) week day,
        ContributionData.weeks contribution_data !! w = Some week
        /\ ContributionData.days week !! d = Some day
        /\ 0 < ContributionData.level day
        /\ enemy = Enemy.mk (Z.of_nat w) (Z.of_nat d) (ContributionData.level day)
                            (ContributionData.level day).
Proof.
  unfold spawn, spawn_week. rewrite list_elem_of_bind. split.
  - intros ([week_idx week] & Hin & Hweek).
    apply enumerate_elem in Hweek as (w & -> & Hw).
    apply list_elem_of_bind in Hin as ([day_idx day] & Hin & Hday).
    apply enumerate_elem in Hday as (d & -> & Hd).
    destruct (Z.ltb_spec 0 (ContributionData.level day)); [|by apply not_elem_of_nil in Hin].
    apply list_elem_of_singleton in Hin as ->. by exists w, d, week, day.
  - intros (w & d & week & day & Hw & Hd & Hlevel & ->).
    exists (Z.of_nat w, week). split; [|apply enumerate_elem; eauto].
    apply list_elem_of_bind. exists (Z.of_nat d, day). split; [|apply enumerate_elem; eauto].
    destruct (Z.ltb_spec 0 (ContributionData.level day)); [|lia].
    by apply list_elem_of_singleton.
Qed.

(** X1.  [GameState(contribution_data)] raises nothing; the new state keeps
    the data, has the ship at week -1 and no bullet, and holds exactly one
    enemy for every cell with a level above 0, at the cell's indices and
    with the level as [health] and [max_health]; no two of its enemies share
    a cell. *)
Theorem new_game_state (contribution_data : ContributionData.t) :
  exists game_state,
    GameState.__init__ contribution_data = Ok game_state
    /\ GameState.contribution_data game_state = contribution_data
    /\ GameState.ship game_state = Ship.mk (-1)
    /\ GameState.bullets game_state = []
    /\ (forall enemy,
          enemy ∈ GameState.enemies game_state
          <-> exists (w d : nat) week day,
                ContributionData.weeks contribution_data !! w = Some week
                /\ ContributionData.days week !! d = Some day
                /\ 0 < ContributionData.level day
                /\ enemy = Enemy.mk (Z.of_nat w) (Z.of_nat d) (ContributionData.level day)
                                    (ContributionData.level day))
    /\ NoDup ((fun enemy => (Enemy.week enemy, Enemy.day enemy))
                <$> GameState.enemies game_state).
Proof.
  eexists. split; [apply init_run|]. simpl.
  split_and!; [done..| |apply spawn_NoDup].
  intros enemy. apply spawn_elem.
Qed.

(** X2.  In a new game state [get_enemy_at] returns an enemy exactly for
    the cells with a level above 0, the enemy it returns is the one spawned
    for that cell, and the call changes nothing. *)
Theorem new_game_state_lookup (contribution_data : ContributionData.t) (week day : Z) :
  exists game_state found,
    GameState.__init__ contribution_data = Ok game_state
    /\ GameState.get_enemy_at week day game_state = Ok (found, game_state)
    /\ (is_Some found
        <-> exists (w d : nat) cells cell,
              week = Z.of_nat w /\ day = Z.of_nat d
              /\ ContributionData.weeks contribution_data !! w = Some cells
              /\ ContributionData.days cells !! d = Some cell
              /\ 0 < ContributionData.level cell)
    /\ forall ref : nat,
         found = Some ref ->
         exists level,
           GameState.enemies game_state !! ref = Some (Enemy.mk week day level level)
           /\ 0 < level.
Proof.
  eexists _, _. split; [apply init_run|]. split; [reflexivity|]. simpl.
  destruct (list_find _ _) as [[ref enemy]|] eqn:Hfind; simpl.
  - apply list_find_Some in Hfind as (Href & (Hweek & Hday & Halive) & _).
    assert (Hin : enemy ∈ spawn contribution_data) by (apply list_elem_of_lookup; eauto).
    apply spawn_elem in Hin as (w & d & cells & cell & Hw & Hd & Hlevel & ->).
    simpl in Hweek, Hday. subst week day. split.
    + split; [|by eexists]. intros _. by exists w, d, cells, cell.
    + intros ? [= <-]. by exists (ContributionData.level cell).
  - split; [|done]. split; [by intros [? ?]|].
    intros (w & d & cells & cell & -> & -> & Hw & Hd & Hlevel).
    apply list_find_None in Hfind.
    eapply Forall_forall in Hfind.
    2:{ apply spawn_elem. by exists w, d, cells, cell. }
    destruct Hfind. split_and!; [done..|]. unfold Enemy.is_alive. simpl. lia.
Qed.

(** ** The effect of a hit *)

(** The sum of the enemies' health. *)
Definition total_health (game_state : GameState.t) : Z :=
  foldr Z.add 0 (Enemy.health <$> GameState.enemies game_state).

Lemma alter_damage_total (f : Enemy.t -> Enemy.t) (l : list Enemy.t) (i : nat) enemy :
  (forall e, Enemy.health (f e) = Enemy.health e - 1) ->
  l !! i = Some enemy ->
  foldr Z.add 0 (Enemy.health <$> alter f i l) = foldr Z.add 0 (Enemy.health <$> l) - 1.
Proof.
  intros Hf. revert i. induction l as [|e l IH]; intros [|i] Hi; csimpl in *; [done|done| |].
  - rewrite Hf. lia.
  - rewrite (IH i Hi). lia.
Qed.

Lemma alter_damage_health (f : Enemy.t -> Enemy.t) (l : list Enemy.t) (i : nat) :
  (forall e, Enemy.health (f e) = Enemy.health e - 1) ->
  Forall2 (fun e e' => Enemy.health e' <= Enemy.health e) l (alter f i l).
Proof.
  intros Hf. revert i. induction l as [|e l IH]; intros [|i]; csimpl; constructor.
  - rewrite Hf. lia.
  - apply Forall_Forall2_diag, Forall_forall. intros; lia.
  - lia.
  - apply IH.
Qed.

Lemma alter_damage_places (l : list Enemy.t) (i : nat) :
  (fun e => (Enemy.week e, Enemy.day e, Enemy.max_health e))
    <$> alter (fun e => snd (Enemy.take_damage e)) i l
  = (fun e => (Enemy.week e, Enemy.day e, Enemy.max_health e)) <$> l.
Proof.
  rewrite (list_fmap_alter _ _ id), list_alter_id; [done..|].
  by apply Forall_forall.
Qed.

(** X3.  [hit_target], on any game state, raises nothing and leaves the
    data, the ship and the bullets; it adds, removes, moves or reorders no
    enemy and changes no [max_health]; no health rises; and the sum of the
    enemies' health drops by exactly 1 when [get_enemy_at] finds an enemy at
    the target and stays the same when it finds none. *)
Theorem hit_target_effect (week day : Z) (game_state : GameState.t) :
  exists found game_state',
    GameState.get_enemy_at week day game_state = Ok (found, game_state)
    /\ GameState.hit_target week day game_state = Ok (tt, game_state')
    /\ GameState.contribution_data game_state' = GameState.contribution_data game_state
    /\ GameState.ship game_state' = GameState.ship game_state
    /\ GameState.bullets game_state' = GameState.bullets game_state
    /\ (fun e => (Enemy.week e, Enemy.day e, Enemy.max_health e))
         <$> GameState.enemies game_state'
       = (fun e => (Enemy.week e, Enemy.day e, Enemy.max_health e))
           <$> GameState.enemies game_state
    /\ Forall2 (fun e e' => Enemy.health e' <= Enemy.health e)
               (GameState.enemies game_state) (GameState.enemies game_state')
    /\ total_health game_state'
       = total_health game_state - match found with Some _ => 1 | None => 0 end.
Proof.
  eexists _, _. split; [reflexivity|]. split; [apply hit_target_run|].
  unfold hit, total_health. simpl.
  destruct (list_find _ _) as [[ref enemy]|] eqn:Hfind; simpl.
  - apply list_find_Some in Hfind as (Href & _ & _).
    split_and!; [done..|apply alter_damage_places|by apply alter_damage_health|].
    by apply (alter_damage_total _ _ _ enemy).
  - split_and!; [done..| |lia].
    apply Forall_Forall2_diag, Forall_forall. intros; lia.
Qed.

(** ** Completion *)

Lemma no_alive_filter (l : list Enemy.t) :
  length (filter (fun enemy => Enemy.is_alive enemy = true) l) = 0%nat
  <-> Forall (fun enemy => Enemy.health enemy <= 0) l.
Proof.
  induction l as [|e l IH]; simpl; [by split|].
  rewrite filter_cons, Forall_cons.
  destruct (decide (Enemy.is_alive e = true)) as [Halive|Hdead];
    unfold Enemy.is_alive in *.
  - simpl. split; [done|]. intros [? _]. apply Z.ltb_lt in Halive. lia.
  - rewrite IH. apply not_true_is_false, Z.ltb_ge in Hdead.
    split; [by split|by intros [_ ?]].
Qed.

Lemma is_complete_spec_run (game_state : GameState.t) :
  exists complete,
    GameState.is_complete game_state = Ok (complete, game_state)
    /\ (complete = true
        <-> Forall (fun enemy => Enemy.health enemy <= 0) (GameState.enemies game_state)).
Proof.
  eexists. split; [reflexivity|]. by rewrite bool_decide_eq_true, no_alive_filter.
Qed.

(** X4.  [is_complete] raises nothing and changes nothing; it answers
    [True] exactly when every enemy's health is at most 0, which is exactly
    when [get_enemy_at] finds no enemy at any position; and then
    [hit_target] changes nothing wherever it is aimed. *)
Theorem is_complete_spec (game_state : GameState.t) :
  exists complete,
    GameState.is_complete game_state = Ok (complete, game_state)
    /\ (complete = true
        <-> Forall (fun enemy => Enemy.health enemy <= 0) (GameState.enemies game_state))
    /\ (complete = true
        <-> forall week day,
              GameState.get_enemy_at week day game_state = Ok (None, game_state))
    /\ (complete = true ->
        forall week day, GameState.hit_target week day game_state = Ok (tt, game_state)).
Proof.
  eexists. split; [reflexivity|].
  assert (Hnone : Forall (fun enemy => Enemy.health enemy <= 0) (GameState.enemies game_state)
                  <-> forall week day,
                        list_find (GameState.targets week day) (GameState.enemies game_state)
                        = None).
  { split.
    - intros Hdead week day. apply list_find_None, Forall_forall.
      intros enemy Hin (_ & _ & Halive).
      eapply Forall_forall in Hdead; [|done].
      unfold Enemy.is_alive in Halive. lia.
    - intros Hfind. apply Forall_forall. intros enemy Hin.
      specialize (Hfind (Enemy.week enemy) (Enemy.day enemy)).
      apply list_find_None in Hfind. eapply Forall_forall in Hfind; [|done].
      destruct (Z.ltb_spec 0 (Enemy.health enemy)) as [Hpos|]; [|done].
      destruct Hfind. split_and!; [done..|]. unfold Enemy.is_alive. lia. }
  rewrite bool_decide_eq_true, no_alive_filter. split_and!.
  - done.
  - rewrite Hnone. unfold GameState.get_enemy_at. split.
    + intros Hfind week day. step. unfold mret, M_ret. by rewrite Hfind.
    + intros Hget week day. specialize (Hget week day).
      erewrite bind_run in Hget; [|reflexivity].
      unfold mret, M_ret in Hget.
      by destruct (list_find _ _).
  - intros Hdead week day. rewrite hit_target_run. unfold hit.
    by rewrite (proj1 Hnone Hdead).
Qed.

(** ** Damage accounting *)

(** What [hit_target] does to the list of enemies. *)
Definition hit_enemies (week day : Z) (l : list Enemy.t) : list Enemy.t :=
  match list_find (GameState.targets week day) l with
  | Some (ref, _) => alter (fun e => snd (Enemy.take_damage e)) ref l
  | None => l
  end.

Lemma hit_enemies_of week day game_state :
  hit week day game_state
  = GameState.set_enemies (hit_enemies week day (GameState.enemies game_state)) game_state.
Proof.
  unfold hit, hit_enemies. destruct (list_find _ _) as [[ref enemy]|]; [done|].
  by destruct game_state.
Qed.

(** An enemy after [n] hits: its health does not go below 0. *)
Definition worn (n : Z) (enemy : Enemy.t) : Enemy.t :=
  Enemy.mk (Enemy.week enemy) (Enemy.day enemy) (Z.max 0 (Enemy.health enemy - n))
           (Enemy.max_health enemy).

Lemma worn_0 enemy : 0 <= Enemy.health enemy -> worn 0 enemy = enemy.
Proof. intros H. destruct enemy. unfold worn. simpl in *. f_equal. lia. Qed.

Lemma worn_worn n m enemy : 0 <= n -> 0 <= m -> worn n (worn m enemy) = worn (m + n) enemy.
Proof. intros Hn Hm. unfold worn. simpl. f_equal. lia. Qed.

Lemma hit_enemies_map week day (l : list Enemy.t) :
  NoDup (position <$> l) ->
  Forall (fun enemy => 0 <= Enemy.health enemy) l ->
  hit_enemies week day l
  = (fun enemy => if decide (position enemy = (week, day)) then worn 1 enemy else enemy) <$> l.
Proof.
  intros Hnodup Hhealth. unfold hit_enemies.
  destruct (list_find _ _) as [[ref enemy]|] eqn:Hfind.
  - apply list_find_Some in Hfind as (Href & (Hweek & Hday & Halive) & _).
    apply list_eq. intros j. rewrite list_lookup_alter, list_lookup_fmap.
    case_decide as Hj.
    + subst j. rewrite Href. simpl. f_equal.
      rewrite decide_True by (unfold position; congruence).
      unfold worn, Enemy.is_alive in *. simpl. f_equal. apply Z.ltb_lt in Halive. lia.
    + destruct (l !! j) as [other|] eqn:Hother; [|done]. simpl. f_equal.
      rewrite decide_False; [done|]. intros Hpos. apply Hj.
      apply (NoDup_lookup _ _ _ (week, day) Hnodup).
      * rewrite list_lookup_fmap, Href. unfold position. simpl. by rewrite Hweek, Hday.
      * by rewrite list_lookup_fmap, Hother, <- Hpos.
  - apply list_find_None in Hfind.
    apply list_eq. intros j. rewrite list_lookup_fmap.
    destruct (l !! j) as [other|] eqn:Hother; [|done]. simpl. f_equal.
    case_decide as Hpos; [|done].
    assert (Hin : other ∈ l) by (apply list_elem_of_lookup; eauto).
    eapply Forall_forall in Hfind; [|done]. eapply Forall_forall in Hhealth; [|done].
    assert (Enemy.health other = 0).
    { destruct (Z.ltb_spec 0 (Enemy.health other)) as [Hpos'|]; [|lia].
      destruct Hfind. unfold position in Hpos. injection Hpos as ? ?.
      split_and!; [done..|]. unfold Enemy.is_alive. by apply Z.ltb_lt. }
    destruct other. unfold worn. simpl in *. f_equal. lia.
Qed.

(** Hits aimed one after the other: [target] says where an item aims, if
    it does. *)
Lemma hit_enemies_fold {A} (target : A -> option (Z * Z)) (xs : list A) (l : list Enemy.t) :
  NoDup (position <$> l) ->
  Forall (fun enemy => 0 <= Enemy.health enemy) l ->
  foldl (fun l x => match target x with
                    | Some (week, day) => hit_enemies week day l
                    | None => l
                    end) l xs
  = (fun enemy =>
       worn (Z.of_nat (length (filter (fun x => target x = Some (position enemy)) xs))) enemy)
      <$> l.
Proof.
  revert l. induction xs as [|x xs IH]; intros l Hnodup Hhealth; simpl.
  - symmetry. rewrite <- (list_fmap_id l) at 2. apply list_fmap_ext.
    intros i enemy Hi. apply worn_0. eapply Forall_forall in Hhealth; [done|].
    apply list_elem_of_lookup. eauto.
  - destruct (target x) as [[week day]|] eqn:Htarget.
    + rewrite hit_enemies_map by done. rewrite IH.
      * rewrite <- list_fmap_compose. apply list_fmap_ext. intros i enemy Hi. simpl.
        rewrite filter_cons. case_decide as Hpos.
        -- rewrite decide_True by congruence.
           change (position (worn 1 enemy)) with (position enemy).
           rewrite length_cons, Nat2Z.inj_succ, worn_worn by lia. f_equal. lia.
        -- rewrite decide_False by congruence. done.
      * rewrite <- list_fmap_compose.
        erewrite list_fmap_ext; [exact Hnodup|]. intros i enemy _. simpl.
        by case_decide.
      * apply Forall_fmap, Forall_forall. intros enemy Hin. simpl.
        eapply Forall_forall in Hhealth; [|done].
        case_decide; [|done]. unfold worn. simpl. lia.
    + rewrite IH by done. apply list_fmap_ext. intros i enemy Hi.
      rewrite filter_cons. by rewrite decide_False by congruence.
Qed.

#[global] Instance Op_eq_dec : EqDecision Op.
Proof. solve_decision. Defined.

Lemma perform_enemies op game_state :
  exists game_state',
    perform op game_state = Ok (tt, game_state')
    /\ GameState.enemies game_state'
       = match op with
         | OpHitTarget week day => hit_enemies week day (GameState.enemies game_state)
         | _ => GameState.enemies game_state
         end.
Proof.
  destruct op as [week day|week day| |week]; simpl.
  - eexists. split; [by step|]. done.
  - eexists. split; [apply hit_target_run|]. by rewrite hit_enemies_of.
  - by eexists.
  - by eexists.
Qed.

(** X5.  After any sequence of [shoot], [hit_target], [clear_bullets] and
    ship moves on a new game state, every enemy stands where it was spawned
    and its health is its level less the number of [hit_target] calls aimed
    at its cell, but not less than 0. *)
Theorem damage_accounting (contribution_data : ContributionData.t) (ops : list Op) :
  exists game_state0 game_state,
    GameState.__init__ contribution_data = Ok game_state0
    /\ play contribution_data ops = Ok (tt, game_state)
    /\ GameState.enemies game_state
       = (fun enemy =>
            let hits :=
              Z.of_nat (length (filter (fun op =>
                op = OpHitTarget (Enemy.week enemy) (Enemy.day enemy)) ops)) in
            Enemy.mk (Enemy.week enemy) (Enemy.day enemy)
                     (Z.max 0 (Enemy.health enemy - hits)) (Enemy.max_health enemy))
           <$> GameState.enemies game_state0.
Proof.
  set (target := fun op => match op with
                           | OpHitTarget week day => Some (week, day)
                           | _ => None
                           end).
  assert (Hrun : forall ops game_state,
            exists game_state',
              for_in ops tt (fun _ op => perform op) game_state = Ok (tt, game_state')
              /\ GameState.enemies game_state'
                 = foldl (fun l x => match target x with
                                     | Some (week, day) => hit_enemies week day l
                                     | None => l
                                     end) (GameState.enemies game_state) ops).
  { clear ops. induction ops as [|op ops IH]; intros game_state; simpl.
    - by eexists.
    - destruct (perform_enemies op game_state) as (game_state' & Hop & Henemies).
      destruct (IH game_state') as (game_state'' & Hops & Henemies').
      exists game_state''. split; [by rewrite (bind_run _ _ _ _ _ Hop)|].
      rewrite Henemies', Henemies. by destruct op. }
  destruct (Hrun ops (GameState.mk contribution_data Ship.__init__
                        (spawn contribution_data) [])) as (game_state & Hops & Henemies).
  exists (GameState.mk contribution_data Ship.__init__ (spawn contribution_data) []),
         game_state.
  split; [apply init_run|]. unfold play. rewrite init_run. simpl.
  split; [exact Hops|]. simpl in Henemies.
  rewrite Henemies, hit_enemies_fold.
  - apply list_fmap_ext. intros i enemy _. unfold worn. simpl.
    rewrite (list_filter_iff _ (fun op => op = OpHitTarget (Enemy.week enemy)
                                                         (Enemy.day enemy))); [done|].
    intros op. unfold target, position.
    destruct op; split; intros H; try done; by simplify_eq.
  - apply spawn_NoDup.
  - apply Forall_forall. intros enemy Hin. apply spawn_alive in Hin. lia.
Qed.

(** ** The state the animator leaves *)

(** The game state after one action of the animator. *)
Definition landed (action : Action.t) (game_state : GameState.t) : GameState.t :=
  GameState.mk (GameState.contribution_data game_state)
    (Ship.mk (Action.week action))
    (if Action.shoot action
     then hit_enemies (Action.week action) (Action.day action) (GameState.enemies game_state)
     else GameState.enemies game_state)
    (if Action.shoot action then [] else GameState.bullets game_state).

Lemma with_game_state_id renderer :
  with_game_state (fun game_state => game_state) renderer = renderer.
Proof. by destruct renderer. Qed.

Lemma foldl_advanced_bullets steps bullet (l : list Z) renderer :
  exists bullets,
    foldl (fun renderer step => advanced steps bullet step renderer) renderer l
    = with_game_state (GameState.set_bullets bullets) renderer.
Proof.
  revert renderer. induction l as [|step l IH]; intros renderer; simpl.
  - exists (GameState.bullets (Renderer.game_state renderer)).
    destruct renderer as [[? ? ? ?] ? ? ? ? ?]. done.
  - destruct (IH (advanced steps bullet step renderer)) as [bullets ->].
    exists bullets. unfold advanced. by rewrite with_game_state_twice.
Qed.

Lemma after_action_landed steps renderer action :
  after_action steps renderer action = with_game_state (landed action) renderer.
Proof.
  unfold after_action, landed, moved. destruct (Action.shoot action).
  - destruct (foldl_advanced_bullets steps
                (length (GameState.bullets (Renderer.game_state
                   (with_game_state (fun game_state =>
                      GameState.set_ship
                        (Ship.move_to (GameState.ship game_state) (Action.week action))
                        game_state) renderer))))
                (range steps)
                (with_game_state (fired (Action.week action) (Action.day action))
                   (with_game_state (fun game_state =>
                      GameState.set_ship
                        (Ship.move_to (GameState.ship game_state) (Action.week action))
                        game_state) renderer)))
      as [bullets ->].
    rewrite !with_game_state_twice. unfold with_game_state. f_equal.
    unfold fired. rewrite !hit_set_bullets, hit_enemies_of. done.
  - done.
Qed.

Lemma run_landed steps (actions : list Action.t) renderer :
  foldl (after_action steps) renderer actions
  = with_game_state (fun game_state => foldl (fun gs a => landed a gs) game_state actions)
                    renderer.
Proof.
  revert renderer. induction actions as [|action actions IH]; intros renderer; simpl.
  - by rewrite with_game_state_id.
  - by rewrite IH, after_action_landed, with_game_state_twice.
Qed.

Lemma landed_fold_enemies (actions : list Action.t) game_state :
  GameState.enemies (foldl (fun gs a => landed a gs) game_state actions)
  = foldl (fun l a => match (if Action.shoot a
                             then Some (Action.week a, Action.day a) else None) with
                      | Some (week, day) => hit_enemies week day l
                      | None => l
                      end)
          (GameState.enemies game_state) actions.
Proof.
  revert game_state. induction actions as [|action actions IH]; intros game_state; simpl.
  - done.
  - rewrite IH. simpl. by destruct (Action.shoot action).
Qed.

Lemma landed_fold_ship (actions : list Action.t) game_state :
  GameState.ship (foldl (fun gs a => landed a gs) game_state actions)
  = match last actions with
    | Some action => Ship.mk (Action.week action)
    | None => GameState.ship game_state
    end.
Proof.
  revert game_state. induction actions as [|action actions IH]; intros game_state; simpl.
  - done.
  - rewrite IH. destruct actions as [|action' actions]; [done|].
    rewrite last_cons_cons.
    destruct (last (action' :: actions)) eqn:Hlast; [done|].
    by apply last_None in Hlast.
Qed.

Lemma landed_fold_bullets (actions : list Action.t) game_state :
  GameState.bullets game_state = [] ->
  GameState.bullets (foldl (fun gs a => landed a gs) game_state actions) = [].
Proof.
  revert game_state. induction actions as [|action actions IH]; intros game_state Hnone; simpl.
  - done.
  - apply IH. simpl. by destruct (Action.shoot action).
Qed.

Lemma landed_fold_data (actions : list Action.t) game_state :
  GameState.contribution_data (foldl (fun gs a => landed a gs) game_state actions)
  = GameState.contribution_data game_state.
Proof.
  revert game_state. induction actions as [|action actions IH]; intros game_state; simpl.
  - done.
  - by rewrite IH.
Qed.

Section outcome.
Variables NUM_WEEKS NUM_DAYS : Z.

(** X6.  [_generate_frames], run on a new game state and its renderer,
    leaves the renderer's dimensions and the data as they were, no bullet,
    the ship at the week of the last action (at -1 when there is none), and
    every enemy with its level less the number of shoot actions aimed at
    its cell, but not less than 0.  So the game ends complete exactly when
    every cell with a level above 0 was shot at at least as often as its
    level. *)
Theorem generate_frames_outcome (self : Animator.t) :
  let actions :=
    BaseStrategy.generate_actions (Animator.strategy self) (Animator.contribution_data self) in
  let shots_at (enemy : Enemy.t) :=
    Z.of_nat (length (filter (fun action =>
      Action.shoot action = true
      /\ Action.week action = Enemy.week enemy
      /\ Action.day action = Enemy.day enemy) actions)) in
  exists game_state0 frames game_state',
    GameState.__init__ (Animator.contribution_data self) = Ok game_state0
    /\ Animator._generate_frames NUM_WEEKS NUM_DAYS self
         (Renderer.__init__ NUM_WEEKS NUM_DAYS game_state0)
       = Ok (frames, Renderer.__init__ NUM_WEEKS NUM_DAYS game_state')
    /\ GameState.contribution_data game_state' = Animator.contribution_data self
    /\ GameState.bullets game_state' = []
    /\ GameState.ship game_state'
       = Ship.mk (default (-1) (Action.week <$> last actions))
    /\ GameState.enemies game_state'
       = (fun enemy =>
            Enemy.mk (Enemy.week enemy) (Enemy.day enemy)
                     (Z.max 0 (Enemy.health enemy - shots_at enemy))
                     (Enemy.max_health enemy))
           <$> GameState.enemies game_state0
    /\ (GameState.is_complete game_state' = Ok (true, game_state')
        <-> forall enemy,
              enemy ∈ GameState.enemies game_state0 -> Enemy.health enemy <= shots_at enemy).
Proof.
  intros actions shots_at.
  set (game_state0 := GameState.mk (Animator.contribution_data self) Ship.__init__
                        (spawn (Animator.contribution_data self)) []).
  set (game_state' := foldl (fun gs a => landed a gs) game_state0 actions).
  assert (Henemies : GameState.enemies game_state'
            = (fun enemy =>
                 Enemy.mk (Enemy.week enemy) (Enemy.day enemy)
                          (Z.max 0 (Enemy.health enemy - shots_at enemy))
                          (Enemy.max_health enemy))
                <$> GameState.enemies game_state0).
  { unfold game_state'. rewrite landed_fold_enemies, hit_enemies_fold.
    - apply list_fmap_ext. intros i enemy _. unfold worn, shots_at. simpl.
      rewrite (list_filter_iff _ (fun action =>
                 Action.shoot action = true
                 /\ Action.week action = Enemy.week enemy
                 /\ Action.day action = Enemy.day enemy)); [done|].
      intros action. unfold position. destruct (Action.shoot action).
      + split; [intros [= -> ->]; done|]. intros (_ & -> & ->). done.
      + split; [done|]. by intros (? & _).
    - apply spawn_NoDup.
    - apply Forall_forall. intros enemy Hin. apply spawn_alive in Hin. lia. }
  exists game_state0, (frame_of NUM_WEEKS NUM_DAYS
                         (Renderer.__init__ NUM_WEEKS NUM_DAYS game_state0)
                       :: actions_frames NUM_WEEKS NUM_DAYS 5
                            (Renderer.__init__ NUM_WEEKS NUM_DAYS game_state0) actions
                       ++ [frame_of NUM_WEEKS NUM_DAYS
                             (Renderer.__init__ NUM_WEEKS NUM_DAYS game_state');
                           frame_of NUM_WEEKS NUM_DAYS
                             (Renderer.__init__ NUM_WEEKS NUM_DAYS game_state')]),
         game_state'.
  split_and!.
  - apply init_run.
  - rewrite generate_frames_run. fold actions. by rewrite run_landed.
  - unfold game_state'. by rewrite landed_fold_data.
  - unfold game_state'. by apply landed_fold_bullets.
  - unfold game_state'. rewrite landed_fold_ship. by destruct (last actions).
  - exact Henemies.
  - destruct (is_complete_spec_run game_state') as (complete & Hrun & Hdead).
    rewrite Hrun. split.
    + intros [= Hcomplete]. apply Hdead in Hcomplete. rewrite Henemies in Hcomplete.
      intros enemy Hin. rewrite Forall_fmap, Forall_forall in Hcomplete.
      specialize (Hcomplete enemy Hin). unfold shots_at in *.
      simpl in Hcomplete. lia.
    + intros Hshots. do 2 f_equal. apply Hdead. rewrite Henemies. apply Forall_fmap.
      apply Forall_forall. intros enemy Hin. specialize (Hshots enemy Hin).
      unfold shots_at in *. simpl. lia.
Qed.
End outcome.

(** ** The frames of a run *)

(** The states in which the frames of one action, and of all actions, are
    rendered. *)
Definition action_states (steps : Z) (renderer : Renderer.t) (action : Action.t)
    : list Renderer.t :=
  let renderer := moved (Action.week action) renderer in
  if Action.shoot action then
    flight_states steps (length (GameState.bullets (Renderer.game_state renderer)))
      (range steps)
      (with_game_state (fired (Action.week action) (Action.day action)) renderer)
  else [renderer].

Fixpoint actions_states (steps : Z) (renderer : Renderer.t) (actions : list Action.t)
    : list Renderer.t :=
  match actions with
  | [] => []
  | action :: actions' =>
      action_states steps renderer action
      ++ actions_states steps (after_action steps renderer action) actions'
  end.

(** The dimensions of a renderer. *)
Definition canvas (renderer : Renderer.t) : Z * Z * Z * Z * Z :=
  (Renderer.grid_width renderer, Renderer.grid_height renderer, Renderer.padding renderer,
   Renderer.width renderer, Renderer.height renderer).

Definition bullet_count (renderer : Renderer.t) : nat :=
  length (GameState.bullets (Renderer.game_state renderer)).

Lemma flight_states_keep steps bullet (l : list Z) renderer :
  Forall (fun state => canvas state = canvas renderer
                       /\ bullet_count state = bullet_count renderer)
         (flight_states steps bullet l renderer).
Proof.
  revert renderer. induction l as [|step l IH]; intros renderer; simpl; constructor.
  - split; [done|]. unfold bullet_count, advanced. simpl. apply length_alter.
  - eapply Forall_impl; [apply IH|]. intros state [-> ->]. split; [done|].
    unfold bullet_count, advanced. simpl. apply length_alter.
Qed.

Lemma action_states_keep steps renderer action :
  GameState.bullets (Renderer.game_state renderer) = [] ->
  Forall (fun state => canvas state = canvas renderer
                       /\ bullet_count state = if Action.shoot action then 1%nat else 0%nat)
         (action_states steps renderer action).
Proof.
  intros Hnone. unfold action_states. destruct (Action.shoot action).
  - eapply Forall_impl; [apply flight_states_keep|]. intros state [-> ->].
    split; [done|]. unfold bullet_count. simpl. by rewrite Hnone.
  - constructor; [|constructor]. split; [done|]. unfold bullet_count. simpl. by rewrite Hnone.
Qed.

Lemma actions_states_keep steps (actions : list Action.t) renderer :
  GameState.bullets (Renderer.game_state renderer) = [] ->
  Forall (fun state => canvas state = canvas renderer /\ (bullet_count state <= 1)%nat)
         (actions_states steps renderer actions).
Proof.
  revert renderer. induction actions as [|action actions IH]; intros renderer Hnone; simpl.
  - constructor.
  - apply Forall_app. split.
    + eapply Forall_impl; [by apply action_states_keep|]. intros state [-> ->].
      split; [done|]. destruct (Action.shoot action); lia.
    + eapply Forall_impl; [apply IH; by apply after_action_no_bullets|].
      intros state [-> ?]. split; [|done]. by rewrite after_action_landed.
Qed.

Lemma sum_constant {A} (f : A -> nat) (n : nat) (l : list A) :
  Forall (fun x => f x = n) l -> sum_list_with f l = (length l * n)%nat.
Proof. induction 1 as [|x l Hx Hl IH]; simpl; [done|]. rewrite Hx, IH. lia. Qed.

Lemma actions_states_bullets steps (actions : list Action.t) renderer :
  GameState.bullets (Renderer.game_state renderer) = [] ->
  sum_list_with bullet_count (actions_states steps renderer actions)
  = (shots actions * Z.to_nat steps)%nat.
Proof.
  revert renderer. unfold shots.
  induction actions as [|action actions IH]; intros renderer Hnone; simpl; [done|].
  rewrite sum_list_with_app, IH by by apply after_action_no_bullets.
  rewrite filter_cons.
  pose proof (action_states_keep steps renderer action Hnone) as Hkeep.
  unfold action_states in *. destruct (Action.shoot action).
  - rewrite decide_True by done. simpl.
    erewrite sum_constant; [|eapply Forall_impl; [exact Hkeep|]; by intros ? [_ ?]].
    rewrite flight_states_length. unfold range. rewrite length_seqZ. lia.
  - rewrite decide_False by done. simpl.
    unfold bullet_count. simpl. rewrite Hnone. done.
Qed.

(** Whether a drawing call paints a bullet, and how many bullets an image
    shows. *)
Definition is_ellipse (op : DrawOp) : bool :=
  match op with
  | ellipse _ _ _ _ _ => true
  | _ => false
  end.

Definition bullets_shown (img : Image.t) : nat :=
  length (filter (fun op => is_ellipse op = true) (Image.drawn img)).

Lemma filter_none {A} (P : A -> Prop) `{forall x, Decision (P x)} (l : list A) :
  Forall (fun x => ~ P x) l -> filter P l = [].
Proof.
  induction 1 as [|x l Hx Hl IH]; [done|].
  by rewrite filter_cons, decide_False.
Qed.

Lemma filter_all {A} (P : A -> Prop) `{forall x, Decision (P x)} (l : list A) :
  Forall P l -> filter P l = l.
Proof.
  induction 1 as [|x l Hx Hl IH]; [done|].
  rewrite filter_cons, decide_True by done. by rewrite IH.
Qed.

Section run.
Variables NUM_WEEKS NUM_DAYS : Z.

Lemma action_frames_states steps renderer action :
  action_frames NUM_WEEKS NUM_DAYS steps renderer action
  = frame_of NUM_WEEKS NUM_DAYS <$> action_states steps renderer action.
Proof. unfold action_frames, action_states. by destruct (Action.shoot action). Qed.

Lemma actions_frames_states steps (actions : list Action.t) renderer :
  actions_frames NUM_WEEKS NUM_DAYS steps renderer actions
  = frame_of NUM_WEEKS NUM_DAYS <$> actions_states steps renderer actions.
Proof.
  revert renderer. induction actions as [|action actions IH]; intros renderer; simpl.
  - done.
  - by rewrite fmap_app, IH, action_frames_states.
Qed.

Lemma frame_of_bullets renderer :
  bullets_shown (frame_of NUM_WEEKS NUM_DAYS renderer) = bullet_count renderer.
Proof.
  unfold bullets_shown, frame_of, scene, bullet_count. simpl.
  rewrite !filter_app.
  rewrite (filter_none _ (grid_ops _ _ _)), (filter_none _ (enemy_ops _ _ _)).
  - rewrite filter_all.
    + rewrite (filter_none _ [_]) by by repeat constructor.
      simpl. by rewrite app_nil_r, length_fmap.
    + apply Forall_fmap, Forall_forall. by intros bullet _.
  - apply Forall_fmap, Forall_forall. intros enemy _. simpl. unfold cell_rect. simpl. done.
  - unfold grid_ops. apply Forall_forall. intros op Hin.
    apply list_elem_of_bind in Hin as (week & Hin & _).
    apply list_elem_of_bind in Hin as (day & Hin & _).
    apply list_elem_of_singleton in Hin as ->. unfold cell_rect. simpl. done.
Qed.

(** The whole run, from the data to the frames and the final state. *)
Lemma generate_gif_run (self : Animator.t) :
  let actions :=
    BaseStrategy.generate_actions (Animator.strategy self) (Animator.contribution_data self) in
  let game_state0 :=
    GameState.mk (Animator.contribution_data self) Ship.__init__
                 (spawn (Animator.contribution_data self)) [] in
  let renderer := Renderer.__init__ NUM_WEEKS NUM_DAYS game_state0 in
  let renderer' := foldl (after_action 5) renderer actions in
  Animator.generate_gif NUM_WEEKS NUM_DAYS self
  = Ok (Some (Animator.mkGif
                (frame_of NUM_WEEKS NUM_DAYS
                   <$> renderer :: actions_states 5 renderer actions ++ [renderer'; renderer'])
                (Animator.frame_duration self) 0)).
Proof.
  intros actions game_state0 renderer renderer'. unfold Animator.generate_gif.
  rewrite init_run. simpl. fold game_state0 renderer.
  rewrite generate_frames_run. fold actions renderer'. simpl.
  by rewrite actions_frames_states, fmap_app.
Qed.


(** X8.  The frames [generate_gif] writes all have mode RGB, the
    renderer's size and the background colour; the first is what
    [render_frame] returns for the new game state, and the last two are
    the same image. *)
Theorem generate_gif_frames (self : Animator.t) :
  exists gif game_state0 first middle final,
    Animator.generate_gif NUM_WEEKS NUM_DAYS self = Ok (Some gif)
    /\ GameState.__init__ (Animator.contribution_data self) = Ok game_state0
    /\ Animator.gif_frames gif = first :: middle ++ [final; final]
    /\ Renderer.render_frame NUM_WEEKS NUM_DAYS
         (Renderer.__init__ NUM_WEEKS NUM_DAYS game_state0)
       = Ok (first, Renderer.__init__ NUM_WEEKS NUM_DAYS game_state0)
    /\ Forall (fun frame =>
                 Image.mode frame = "RGB"%string
                 /\ Image.size frame = (NUM_WEEKS * 14 + 80, NUM_DAYS * 14 + 80)
                 /\ Image.color frame = (13, 17, 23))
              (Animator.gif_frames gif).
Proof.
  eexists _, _, _, _, _. split; [apply generate_gif_run|].
  split; [apply init_run|]. simpl.
  set (renderer := Renderer.__init__ NUM_WEEKS NUM_DAYS _).
  set (actions := BaseStrategy.generate_actions _ _).
  split; [by rewrite fmap_app|]. split; [apply render_frame_run|].
  assert (Hcanvas : forall state, canvas state = canvas renderer ->
            Image.mode (frame_of NUM_WEEKS NUM_DAYS state) = "RGB"%string
            /\ Image.size (frame_of NUM_WEEKS NUM_DAYS state)
               = (NUM_WEEKS * 14 + 80, NUM_DAYS * 14 + 80)
            /\ Image.color (frame_of NUM_WEEKS NUM_DAYS state) = (13, 17, 23)).
  { intros state [= _ _ _ Hwidth Hheight]. split_and!; [done| |done].
    simpl. rewrite Hwidth, Hheight. simpl. unfold Renderer.CELL_SIZE, Renderer.CELL_SPACING.
    f_equal; lia. }
  constructor; [by apply Hcanvas|].
  rewrite fmap_app. apply Forall_app. split.
  - apply Forall_fmap. eapply Forall_impl; [by apply (actions_states_keep 5 actions renderer)|].
    intros state [Hstate _]. unfold compose. by apply Hcanvas.
  - assert (canvas (foldl (after_action 5) renderer actions) = canvas renderer)
      by by rewrite run_landed.
    repeat constructor; by apply Hcanvas.
Qed.

(** X9.  No frame [generate_gif] writes shows more than one bullet; the
    first frame and the last two show none; and the bullets shown add up to
    five per shoot action. *)
Theorem generate_gif_bullets (self : Animator.t) :
  let actions :=
    BaseStrategy.generate_actions (Animator.strategy self) (Animator.contribution_data self) in
  let k := length (filter (fun action => Action.shoot action = true) actions) in
  exists gif first middle final,
    Animator.generate_gif NUM_WEEKS NUM_DAYS self = Ok (Some gif)
    /\ Animator.gif_frames gif = first :: middle ++ [final; final]
    /\ Forall (fun frame => (bullets_shown frame <= 1)%nat) (Animator.gif_frames gif)
    /\ bullets_shown first = 0%nat
    /\ bullets_shown final = 0%nat
    /\ sum_list_with bullets_shown (Animator.gif_frames gif) = (5 * k)%nat.
Proof.
  intros actions k. eexists _, _, _, _. split; [apply generate_gif_run|]. simpl.
  fold actions.
  set (renderer := Renderer.__init__ NUM_WEEKS NUM_DAYS _).
  assert (Hnone : GameState.bullets (Renderer.game_state renderer) = []) by done.
  assert (Hfinal : bullet_count (foldl (after_action 5) renderer actions) = 0%nat).
  { unfold bullet_count. rewrite run_landed. simpl. by rewrite landed_fold_bullets. }
  split; [by rewrite fmap_app|]. rewrite !frame_of_bullets.
  split_and!; [|done|done|].
  - constructor; [rewrite frame_of_bullets; unfold bullet_count; simpl; lia|].
    rewrite fmap_app. apply Forall_app. split.
    + apply Forall_fmap.
      eapply Forall_impl; [by apply (actions_states_keep 5 actions renderer)|].
      intros state [_ Hstate]. unfold compose. by rewrite frame_of_bullets.
    + repeat constructor; rewrite frame_of_bullets, Hfinal; lia.
  - simpl. rewrite fmap_app, sum_list_with_app. simpl. rewrite !frame_of_bullets, Hfinal.
    assert (Hsum : sum_list_with bullets_shown
                     (frame_of NUM_WEEKS NUM_DAYS <$> actions_states 5 renderer actions)
                   = sum_list_with bullet_count (actions_states 5 renderer actions)).
    { generalize (actions_states 5 renderer actions). intros l.
      induction l as [|state l IH]; csimpl; [done|]. by rewrite frame_of_bullets, IH. }
    rewrite Hsum, actions_states_bullets by done. unfold shots. fold k.
    unfold bullet_count. simpl. lia.
Qed.
End run.

(** ** A colour map without level 1 *)

Lemma bind_raise {S A B} (m : M S A) (f : A -> M S B) s e :
  m s = Raise e -> (m ≫= f) s = Raise e.
Proof. intros H. unfold mbind, M_bind. by rewrite H. Qed.

Section colours.
Variables NUM_WEEKS NUM_DAYS : Z.

(** X10.  With a context whose colour map has no entry for level 1,
    [Enemy.draw] raises [KeyError(1)] for every alive enemy, also when the
    map has an entry for the enemy's own health (the default is looked up
    before [get] is called), and paints nothing for a dead one; so
    [GameState.draw] raises [KeyError(1)] as soon as one enemy is alive and
    succeeds when none is. *)
Theorem draw_without_level_1 (context : Context.t) (img : Image.t)
    (game_state : GameState.t) :
  Context.enemy_colors context !! 1 = None ->
  (forall enemy,
     Enemy.draw enemy img context
     = if Enemy.is_alive enemy then Raise (KeyError 1) else Ok img)
  /\ (Exists (fun enemy => Enemy.is_alive enemy = true) (GameState.enemies game_state) ->
      GameState.draw NUM_WEEKS NUM_DAYS img context game_state = Raise (KeyError 1))
  /\ (Forall (fun enemy => Enemy.is_alive enemy = false) (GameState.enemies game_state) ->
      exists img',
        GameState.draw NUM_WEEKS NUM_DAYS img context game_state = Ok (img', game_state)).
Proof.
  intros Hkey.
  assert (Hdraw : forall enemy img,
            Enemy.draw enemy img context
            = if Enemy.is_alive enemy then Raise (KeyError 1) else Ok img).
  { intros enemy img0. unfold Enemy.draw, dict_getitem. rewrite Hkey.
    destruct (Enemy.is_alive enemy); simpl; [|done].
    by destruct (Context.get_cell_position context _ _). }
  split_and!; [intros enemy; apply Hdraw| |].
  - intros Halive. unfold GameState.draw.
    step_by draw_grid_run. unfold GameState.get_alive_enemies. step.
    apply bind_raise.
    destruct (filter _ _) as [|enemy alive] eqn:Hfilter.
    + apply Exists_exists in Halive as (enemy & Hin & Halive).
      assert (enemy ∈ filter (fun enemy => Enemy.is_alive enemy = true)
                             (GameState.enemies game_state))
        by by apply list_elem_of_filter.
      rewrite Hfilter in *. by apply not_elem_of_nil in H.
    + assert (Henemy : enemy ∈ filter (fun enemy => Enemy.is_alive enemy = true)
                                      (GameState.enemies game_state))
        by (rewrite Hfilter; apply elem_of_cons; by left).
      apply list_elem_of_filter in Henemy as [Henemy _].
      simpl. apply bind_raise. unfold liftR. by rewrite Hdraw, Henemy.
  - intros Hdead. eexists. unfold GameState.draw.
    step_by draw_grid_run. unfold GameState.get_alive_enemies. step.
    rewrite filter_none.
    2:{ eapply Forall_impl; [exact Hdead|]. intros enemy ->. done. }
    simpl. step. step. step_by draw_bullets_run. step.
    unfold liftR. by rewrite Ship_draw_paints.
Qed.
End colours.

(** ** Geometry *)

Section geometry.
Variables NUM_WEEKS NUM_DAYS : Z.

(** X11.  For the renderer of a [NUM_WEEKS] x [NUM_DAYS] grid, every cell
    of the grid lies inside the image, at least the padding of 40 away from
    each edge, and two different cells do not touch: their squares are
    apart along one axis. *)
Theorem grid_cells_fit (game_state : GameState.t) (week day week' day' : Z) :
  0 <= week < NUM_WEEKS -> 0 <= day < NUM_DAYS ->
  0 <= week' < NUM_WEEKS -> 0 <= day' < NUM_DAYS ->
  let renderer := Renderer.__init__ NUM_WEEKS NUM_DAYS game_state in
  let x := fst (Renderer._get_cell_position renderer week day) in
  let y := snd (Renderer._get_cell_position renderer week day) in
  let x' := fst (Renderer._get_cell_position renderer week' day') in
  let y' := snd (Renderer._get_cell_position renderer week' day') in
  (40 <= x /\ x + Renderer.CELL_SIZE < Renderer.width renderer - 40
   /\ 40 <= y /\ y + Renderer.CELL_SIZE < Renderer.height renderer - 40)
  /\ ((week, day) <> (week', day') ->
      x + Renderer.CELL_SIZE < x' \/ x' + Renderer.CELL_SIZE < x
      \/ y + Renderer.CELL_SIZE < y' \/ y' + Renderer.CELL_SIZE < y).
Proof.
  intros Hweek Hday Hweek' Hday' renderer x y x' y'.
  unfold x, y, x', y', renderer, Renderer._get_cell_position, Renderer.__init__,
    Renderer.CELL_SIZE, Renderer.CELL_SPACING. simpl.
  split; [lia|]. intros Hne.
  assert (week <> week' \/ day <> day') as [?|?]; [|lia..].
  destruct (decide (week = week')) as [->|]; [|by left].
  right. intros ->. done.
Qed.

(** X12.  For a ship and a bullet at the same week of the grid, the
    bullet is drawn centred under the tip of the ship's triangle, 6 pixels
    wide, and the triangle lies inside the image; a ship at a negative week
    is drawn at the fixed place left of the grid, inside the image as well.  *)
Theorem ship_and_bullet_placement (game_state : GameState.t) (img : Image.t)
    (week day : Z) (progress : float) :
  0 <= week < NUM_WEEKS -> 0 <= NUM_DAYS ->
  let renderer := Renderer.__init__ NUM_WEEKS NUM_DAYS game_state in
  let context := Renderer._create_context renderer in
  (exists tip top base y0 y1,
     Ship.draw NUM_DAYS (Ship.mk week) img context
     = Ok (Image.paint (polygon [(tip, top); (tip - 6, base); (tip + 6, base)]
                                Renderer.COLOR_SHIP) img)
     /\ Bullet.draw NUM_DAYS (Bullet.mk week day progress) img context
        = Ok (Image.paint (ellipse (tip - 3) y0 (tip + 3) y1 Renderer.COLOR_BULLET) img)
     /\ 40 <= tip - 6 /\ tip + 6 <= Renderer.width renderer - 40
     /\ Renderer.height renderer - 40 < top /\ top < base
     /\ base < Renderer.height renderer)
  /\ forall away, away < 0 ->
       exists top base,
         Ship.draw NUM_DAYS (Ship.mk away) img context
         = Ok (Image.paint (polygon [(26, top); (20, base); (32, base)] Renderer.COLOR_SHIP)
                           img)
         /\ 32 < 40 <= Renderer.width renderer
         /\ top < base < Renderer.height renderer.
Proof.
  intros Hweek Hdays renderer context. split.
  - exists (40 + week * 14 + 6), (40 + NUM_DAYS * 14 + 10), (40 + NUM_DAYS * 14 + 10 + 12).
    eexists _, _. split_and!.
    + unfold Ship.draw. simpl.
      destruct (Z.leb_spec 0 week); [|lia].
      unfold Renderer.CELL_SIZE, Renderer.CELL_SPACING.
      change (12 `div` 2) with 6.
      replace (40 + week * (12 + 2) + 6) with (40 + week * 14 + 6) by lia.
      replace (40 + week * (12 + 2)) with (40 + week * 14 + 6 - 6) by lia.
      replace (40 + week * 14 + 6 - 6 + 12) with (40 + week * 14 + 6 + 6) by lia.
      replace (40 + NUM_DAYS * (12 + 2) + 10) with (40 + NUM_DAYS * 14 + 10) by lia.
      reflexivity.
    + unfold Bullet.draw. simpl.
      unfold Renderer.CELL_SIZE, Renderer.CELL_SPACING.
      change (12 `div` 2) with 6.
      replace (40 + week * (12 + 2) + 6 - 3) with (40 + week * 14 + 6 - 3) by lia.
      replace (40 + week * (12 + 2) + 6 + 3) with (40 + week * 14 + 6 + 3) by lia.
      reflexivity.
    + lia.
    + unfold renderer, Renderer.__init__, Renderer.CELL_SIZE, Renderer.CELL_SPACING.
      simpl. lia.
    + unfold renderer, Renderer.__init__, Renderer.CELL_SIZE, Renderer.CELL_SPACING.
      simpl. lia.
    + lia.
    + unfold renderer, Renderer.__init__, Renderer.CELL_SIZE, Renderer.CELL_SPACING.
      simpl. lia.
  - intros away Haway.
    exists (40 + NUM_DAYS * 14 + 10), (40 + NUM_DAYS * 14 + 10 + 12). split_and!.
    + unfold Ship.draw. simpl. destruct (Z.leb_spec 0 away); [lia|].
      unfold Renderer.CELL_SIZE, Renderer.CELL_SPACING.
      change (12 `div` 2) with 6.
      replace (40 + NUM_DAYS * (12 + 2) + 10) with (40 + NUM_DAYS * 14 + 10) by lia.
      reflexivity.
    + lia.
    + unfold renderer, Renderer.__init__, Renderer.CELL_SIZE, Renderer.CELL_SPACING.
      simpl. lia.
    + lia.
    + unfold renderer, Renderer.__init__, Renderer.CELL_SIZE, Renderer.CELL_SPACING.
      simpl. lia.
Qed.
End geometry.

(** ** The endpoint's answers *)

Lemma contains_known (strategy : string) :
  App.contains App.STRATEGY_MAP strategy = true
  <-> exists class, (strategy, class) ∈ App.STRATEGY_MAP.
Proof.
  unfold App.contains. rewrite bool_decide_eq_true. unfold App.STRATEGY_MAP. simpl.
  rewrite !elem_of_cons. split.
  - intros [->|[->|[->|Hnil]]]; [| | |by apply not_elem_of_nil in Hnil];
      eexists; rewrite !elem_of_cons; eauto.
  - intros (class & Hin). rewrite !elem_of_cons in Hin.
    destruct Hin as [[= -> _]|[[= -> _]|[[= -> _]|Hnil]]]; [| | |by apply not_elem_of_nil in Hnil];
      eauto.
Qed.

Lemma get_known (strategy : string) class default :
  (strategy, class) ∈ App.STRATEGY_MAP ->
  App.get App.STRATEGY_MAP strategy default = class.
Proof.
  unfold App.STRATEGY_MAP. rewrite !elem_of_cons.
  intros [[= -> ->]|[[= -> ->]|[[= -> ->]|Hnil]]]; [done..|].
  by apply not_elem_of_nil in Hnil.
Qed.

Section answers.
Variables Data BytesIO : Type.
Variable get_contribution_graph : string -> string -> Result Data.
Variable animate : Data -> App.StrategyClass -> Result BytesIO.


(** X14.  The endpoint's errors.  Without a token, or with an empty one,
    it answers 500 whatever the selector.  With a token and a valid
    selector, a [GitHubAPIError] from fetching or animating is answered with
    400 and the error's message, any other exception with 500 and the
    message after [Failed to generate GIF: ]; an exception while fetching
    is answered without the animator being asked.  No answer has a status
    other than 400 or 500. *)
Theorem generate_errors (GH_TOKEN : option string) (username strategy : string) :
  (GH_TOKEN = None \/ GH_TOKEN = Some EmptyString ->
   App.generate Data BytesIO get_contribution_graph animate GH_TOKEN username strategy
   = App.HTTPException 500 "GitHub token not configured")
  /\ (forall token e,
        GH_TOKEN = Some token -> token <> EmptyString ->
        App.contains App.STRATEGY_MAP strategy = true ->
        App.generate_gif Data BytesIO get_contribution_graph animate username strategy token
        = Raise e ->
        App.generate Data BytesIO get_contribution_graph animate GH_TOKEN username strategy
        = match e with
          | GitHubAPIError msg => App.HTTPException 400 msg
          | _ => App.HTTPException 500 ("Failed to generate GIF: " +:+ App.str e)
          end)
  /\ (forall token e,
        get_contribution_graph token username = Raise e ->
        App.generate_gif Data BytesIO get_contribution_graph animate username strategy token
        = Raise e)
  /\ (forall status_code detail,
        App.generate Data BytesIO get_contribution_graph animate GH_TOKEN username strategy
        = App.HTTPException status_code detail ->
        status_code = 400 \/ status_code = 500).
Proof.
  unfold App.generate. split_and!.
  - intros [->| ->]; [done|]. by rewrite bool_decide_eq_true_2.
  - intros token e -> Htoken Hknown Hraise.
    rewrite bool_decide_eq_false_2, Hknown, Hraise by done. simpl. by destruct e.
  - intros token e Hfetch. unfold App.generate_gif. by rewrite Hfetch.
  - intros status_code detail. destruct GH_TOKEN as [token|]; [|intros [= <- _]; by right].
    case_bool_decide; [intros [= <- _]; by right|].
    destruct (App.contains _ _); simpl; [|intros [= <- _]; by left].
    destruct (App.generate_gif _ _ _ _ _ _ _) as [gif|[key|msg|msg]];
      [done|intros [= <- _]; by right|intros [= <- _]; by left|intros [= <- _]; by right].
Qed.
End answers.

(** ** Instances of the conditional properties, continued *)

(** A colour map that knows level 2 only. *)
Definition level_2_only : Context.t :=
  Context.mk (fun week day => (40 + week * 14, 40 + day * 14)) 12 2 40
             (22, 27, 34) (<[2 := (38, 166, 65)]> ∅) (88, 166, 255) (255, 223, 0).

Lemma draw_without_level_1_witness :
  Enemy.draw (Enemy.mk 0 0 2 2) (Image.new "RGB" (94, 94) (13, 17, 23)) level_2_only
  = Raise (KeyError 1)
  /\ GameState.draw 1 1 (Image.new "RGB" (94, 94) (13, 17, 23)) level_2_only
       (GameState.mk one_cell Ship.__init__ [Enemy.mk 0 0 2 2] [])
     = Raise (KeyError 1).
Proof.
  destruct (draw_without_level_1 1 1 level_2_only (Image.new "RGB" (94, 94) (13, 17, 23))
              (GameState.mk one_cell Ship.__init__ [Enemy.mk 0 0 2 2] []) eq_refl)
    as (Hdraw & Hraise & _).
  split; [by rewrite Hdraw|]. apply Hraise. by constructor.
Defined.

Lemma grid_cells_fit_witness :
  let renderer := Renderer.__init__ 52 7 (GameState.mk one_cell Ship.__init__ [] []) in
  Renderer._get_cell_position renderer 51 6 = (754, 124)
  /\ 754 + Renderer.CELL_SIZE < Renderer.width renderer - 40
  /\ 124 + Renderer.CELL_SIZE < Renderer.height renderer - 40.
Proof.
  intros renderer.
  destruct (grid_cells_fit 52 7 (GameState.mk one_cell Ship.__init__ [] []) 51 6 0 0)
    as [(_ & Hx & _ & Hy) _]; [lia..|].
  split; [reflexivity|]. split; [exact Hx|exact Hy].
Defined.

Lemma ship_and_bullet_placement_witness :
  let context :=
    Renderer._create_context
      (Renderer.__init__ 52 7 (GameState.mk one_cell Ship.__init__ [] [])) in
  exists tip top base y0 y1,
    Ship.draw 7 (Ship.mk 3) (Image.new "RGB" (808, 178) (13, 17, 23)) context
    = Ok (Image.paint (polygon [(tip, top); (tip - 6, base); (tip + 6, base)]
                               Renderer.COLOR_SHIP)
            (Image.new "RGB" (808, 178) (13, 17, 23)))
    /\ Bullet.draw 7 (Bullet.mk 3 2 1%float) (Image.new "RGB" (808, 178) (13, 17, 23)) context
       = Ok (Image.paint (ellipse (tip - 3) y0 (tip + 3) y1 Renderer.COLOR_BULLET)
               (Image.new "RGB" (808, 178) (13, 17, 23))).
Proof.
  intros context.
  destruct (ship_and_bullet_placement 52 7 (GameState.mk one_cell Ship.__init__ [] [])
              (Image.new "RGB" (808, 178) (13, 17, 23)) 3 2 1%float)
    as [(tip & top & base & y0 & y1 & Hship & Hbullet & _) _]; [lia..|].
  by exists tip, top, base, y0, y1.
Defined.

(** The bullet of the last flight step is centred on its target: for the
    third week and the third day of a 52 x 7 grid, at progress [5 / 5]. *)
Example bullet_reaches_target :
  Bullet.draw 7 (Bullet.mk 3 2 (int_truediv 5 5)) (Image.new "RGB" (808, 178) (13, 17, 23))
    (Renderer._create_context
       (Renderer.__init__ 52 7 (GameState.mk one_cell Ship.__init__ [] [])))
  = Ok (Image.paint (ellipse 85 71 91 77 Renderer.COLOR_BULLET)
          (Image.new "RGB" (808, 178) (13, 17, 23))).
Proof. reflexivity. Qed.
